(** * Trail discovery matching: a shallow embedding of [discover_skiløyper.py]

    The development follows the Python module function by function:
    [haversine], [beregn_linje_lengde], [segmenter_løype],
    [sjekk_segment_besøkt], [les_gpx] and [prosesser_løyper].

    - Python exceptions are values of [res]; [try/except] is a [match].
    - [print] and file reads are the effects of the [IO] monad.
    - Python's [float] arithmetic is the interface [Num]; the [math] module
      is the interface [Math]; the shapely calls are the interface
      [Shapely].  The code is embedded once, over these interfaces, and run
      on two arithmetics: exact rationals (module [Exact]) and IEEE
      binary64 (module [IEEE]). *)

From Stdlib Require Import Floats.PrimFloat.
From Stdlib Require Floats.SpecFloat Floats.FloatOps.
From Stdlib Require Import ZArith QArith Qabs List Bool Lia Lqa String.
From Stdlib Require Import Permutation.
Import ListNotations.

Set Implicit Arguments.
Close Scope Q_scope.
Open Scope Z_scope.

(** ** Exceptions *)

Inductive exn : Type :=
| ValueError          (* math domain error, int(nan) *)
| OverflowError       (* int(inf), float ** overflow *)
| ZeroDivisionError
| IndexError
| FileNotFoundError
| GEOSException.      (* any error raised inside shapely *)

Inductive res (A : Type) : Type :=
| Ok (a : A)
| Raise (e : exn).

Arguments Ok {A} a.
Arguments Raise {A} e.

Definition bind {A B : Type} (m : res A) (k : A -> res B) : res B :=
  match m with
  | Ok a => k a
  | Raise e => Raise e
  end.

Notation "x <- m ;; k" := (bind m (fun x => k))
  (at level 61, m at next level, right associativity).
Notation "' pat <- m ;; k" := (bind m (fun x => match x with pat => k end))
  (at level 61, pat pattern, m at next level, right associativity).

(** A [for] loop whose body may raise: the state is threaded through the
    iterations and the first exception leaves the loop. *)
Fixpoint for_each {A B : Type} (xs : list A) (st : B)
    (body : B -> A -> res B) : res B :=
  match xs with
  | [] => Ok st
  | x :: xs' => st' <- body st x ;; for_each xs' st' body
  end.

(** [range(n)] *)
Definition range (n : Z) : list Z := map Z.of_nat (seq 0 (Z.to_nat n)).

(** [xs[i]] for a non-negative index *)
Definition getitem {A : Type} (xs : list A) (i : nat) : res A :=
  match nth_error xs i with
  | Some x => Ok x
  | None => Raise IndexError
  end.

(** ** Interfaces to what lies outside the module *)

(** Python numbers.  Integer literals that meet a float are converted by
    [of_int]. *)
Class Num (F : Type) : Type := {
  of_int : Z -> F;
  add : F -> F -> F;
  sub : F -> F -> F;
  mul : F -> F -> F;
  div : F -> F -> F;          (* x / y for y <> 0 *)
  is_zero : F -> bool;        (* y == 0, the test behind ZeroDivisionError *)
  ltb : F -> F -> bool;
  leb : F -> F -> bool;
  pow : F -> Z -> res F;      (* x ** n *)
  int : F -> res Z            (* int(x): truncation towards zero *)
}.

Declare Scope num_scope.
Delimit Scope num_scope with num.
Infix "+" := add : num_scope.
Infix "-" := sub : num_scope.
Infix "*" := mul : num_scope.
Infix "/" := div : num_scope.
Infix "<?" := ltb : num_scope.
Infix "<=?" := leb : num_scope.

(** The [math] module. *)
Class Math (F : Type) : Type := {
  math_radians : F -> F;
  math_sin : F -> res F;
  math_cos : F -> res F;
  math_sqrt : F -> res F;
  math_atan2 : F -> F -> F
}.

(** The shapely calls of the module.  [geom] stands for the line and point
    geometries, [polygon] for what [buffer] returns; [substring] is the call
    with [normalized=True] and [contains p (lon, lat)] is
    [p.contains(Point(lon, lat))]. *)
Class Shapely (F : Type) : Type := {
  geom : Type;
  polygon : Type;
  LineString : list (F * F) -> res geom;
  coords : geom -> list (F * F);
  substring : geom -> F -> F -> res geom;
  buffer : geom -> F -> polygon;
  contains : polygon -> F * F -> bool
}.

(** ** The module *)

Section Discover.

Context {F : Type} {num : Num F} {math : Math F} {shapely : Shapely F}.

Local Open Scope num_scope.

(** [x / y] where [y] is not a literal *)
Definition truediv (x y : F) : res F :=
  if is_zero y then Raise ZeroDivisionError else Ok (x / y).

(** [i / n] on two Python ints: the correctly rounded quotient, which for
    operands below 2^53 is the quotient of their conversions *)
Definition int_truediv (i n : Z) : res F :=
  if (n =? 0)%Z then Raise ZeroDivisionError else Ok (of_int i / of_int n).

Definition haversine (lon1 lat1 lon2 lat2 : F) : res F :=
  let R := of_int 6371000 in
  let phi1 := math_radians lat1 in
  let phi2 := math_radians lat2 in
  let delta_phi := math_radians (lat2 - lat1) in
  let delta_lambda := math_radians (lon2 - lon1) in
  s1 <- math_sin (delta_phi / of_int 2) ;;
  p1 <- pow s1 2 ;;
  c1 <- math_cos phi1 ;;
  c2 <- math_cos phi2 ;;
  s2 <- math_sin (delta_lambda / of_int 2) ;;
  p2 <- pow s2 2 ;;
  let a := p1 + c1 * c2 * p2 in
  ra <- math_sqrt a ;;
  rb <- math_sqrt (of_int 1 - a) ;;
  let c := of_int 2 * math_atan2 ra rb in
  Ok (R * c).

Definition beregn_linje_lengde (linestring : geom) : res F :=
  let cs := coords linestring in
  for_each (seq 0 (List.length cs - 1)) (of_int 0) (fun total i =>
    '(lon1, lat1) <- getitem cs i ;;
    '(lon2, lat2) <- getitem cs (i + 1) ;;
    h <- haversine lon1 lat1 lon2 lat2 ;;
    Ok (total + h)).

Definition segmenter_løype (linestring : geom) (segment_lengde : F)
    : res (list geom) :=
  total_lengde <- beregn_linje_lengde linestring ;;
  q <- truediv total_lengde segment_lengde ;;
  k <- int q ;;
  let antall_segmenter := Z.max 1 k in
  for_each (range antall_segmenter) [] (fun segmenter i =>
    start_frac <- int_truediv i antall_segmenter ;;
    end_frac <- int_truediv (i + 1) antall_segmenter ;;
    match substring linestring start_frac end_frac with
    | Ok segment => Ok (segmenter ++ [segment])
    | Raise _ => Ok segmenter                       (* except: continue *)
    end).

Fixpoint noen_innenfor (buffered_segment : polygon)
    (gpx_punkter : list (F * F)) : bool :=
  match gpx_punkter with
  | [] => false
  | (lon, lat) :: rest =>
      if contains buffered_segment (lon, lat) then true
      else noen_innenfor buffered_segment rest
  end.

Definition sjekk_segment_besøkt (segment : geom)
    (gpx_punkter : list (F * F)) (buffer_meter : F) : bool :=
  let buffer_degrees := buffer_meter / of_int 111000 in
  let buffered_segment := buffer segment buffer_degrees in
  noen_innenfor buffered_segment gpx_punkter.

(** *** Input and output *)

(** One constructor per [print] call of the module, with the values it
    interpolates. *)
Inductive melding : Type :=
| MLinje                          (* the rule of 70 "=" *)
| MProsesserer                    (* "Prosesserer skiløyper" *)
| MLeserLøyper (fil : string)     (* "Leser skiløyper: ..." *)
| MLastet (antall : nat)          (* "... løyper lastet" *)
| MLeserGpx (fil : string)        (* "Leser GPX-fil: ..." *)
| MHentet (antall : nat)          (* "Hentet ... GPS-punkter" *)
| MTom                            (* print() *)
| MSegmenterer                    (* "Segmenterer løyper i 100m biter..." *)
| MOpprettet (antall : nat)       (* "... segmenter opprettet" *)
| MTotalLengde (km : F)           (* "Total lengde: ... km" *)
| MBesøktLengde (km : F)          (* "Besøkt lengde: ... km" *)
| MDiscovery (prosent : F).       (* "Discovery: ...%" *)

(** A computation prints lines and then returns or raises; what was printed
    before an exception stays printed. *)
Definition IO (A : Type) : Type := (list melding * res A)%type.

Definition io_bind {A B : Type} (m : IO A) (k : A -> IO B) : IO B :=
  match m with
  | (out, Ok a) => let (out', r) := k a in (out ++ out', r)
  | (out, Raise e) => (out, Raise e)
  end.

Definition print (m : melding) : IO unit := ([m], Ok tt).
Definition run {A : Type} (r : res A) : IO A := ([], r).
Definition utskrift {A : Type} (m : IO A) : list melding := fst m.
Definition verdi {A : Type} (m : IO A) : res A := snd m.

Notation "x <~ m ;; k" := (io_bind m (fun x => k))
  (at level 61, m at next level, right associativity).
Notation "m ;;; k" := (io_bind m (fun _ => k))
  (at level 61, right associativity).

(** A parsed GPX document: tracks, their segments, their points. *)
Record gpx_point : Type := { longitude : F; latitude : F }.
Definition gpx_doc : Type := list (list (list gpx_point)).

(** A GeoJSON feature: the coordinates of its geometry and its property
    bag, which the module carries through without reading it. *)
Variable Props : Type.
Record feature : Type := {
  geometry_coordinates : list (F * F);
  properties : Props
}.

(** The files: opening and parsing the file at a path yields the parsed
    document or raises. *)
Record filer : Type := {
  les_geojson : string -> res (list feature);   (* open + json.load, ['features'] *)
  les_gpx_fil : string -> res gpx_doc           (* open + gpxpy.parse *)
}.

(** The three nested loops of [les_gpx]: every point of every segment of
    every track, in order. *)
Definition gpx_koordinater (gpx : gpx_doc) : list (F * F) :=
  flat_map (fun track =>
    flat_map (fun segment =>
      map (fun point => (longitude point, latitude point)) segment)
      track) gpx.

Definition les_gpx (fs : filer) (gpx_file : string) : IO (list (F * F)) :=
  print (MLeserGpx gpx_file) ;;;
  gpx <~ run (les_gpx_fil fs gpx_file) ;;
  let coordinates := gpx_koordinater gpx in
  print (MHentet (List.length coordinates)) ;;;
  ([], Ok coordinates).

(** An entry of [alle_segmenter]. *)
Record segment_post : Type := {
  seg_geometry : geom;
  seg_besøkt : bool;
  seg_lengde : F;
  seg_properties : Props
}.

(** The three accumulators of the matching loop. *)
Record tilstand : Type := {
  alle_segmenter : list segment_post;
  total_lengde_meter : F;
  besøkt_lengde_meter : F
}.

Definition start_tilstand : tilstand :=
  {| alle_segmenter := []; total_lengde_meter := of_int 0;
     besøkt_lengde_meter := of_int 0 |}.

(** Body of [for segment in segmenter]. *)
Definition behandle_segment (gpx_punkter : list (F * F)) (props : Props)
    (st : tilstand) (segment : geom) : res tilstand :=
  segment_lengde <- beregn_linje_lengde segment ;;
  let total := total_lengde_meter st + segment_lengde in
  let besøkt := sjekk_segment_besøkt segment gpx_punkter (of_int 50) in
  let besøkt_lengde :=
    if besøkt then besøkt_lengde_meter st + segment_lengde
    else besøkt_lengde_meter st in
  Ok {| alle_segmenter :=
          alle_segmenter st ++
            [ {| seg_geometry := segment; seg_besøkt := besøkt;
                 seg_lengde := segment_lengde; seg_properties := props |} ];
        total_lengde_meter := total;
        besøkt_lengde_meter := besøkt_lengde |}.

(** Body of [for feature in skiløyper_data['features']]. *)
Definition behandle_feature (gpx_punkter : list (F * F))
    (st : tilstand) (f : feature) : res tilstand :=
  linestring <- LineString (geometry_coordinates f) ;;
  segmenter <- segmenter_løype linestring (of_int 100) ;;
  for_each segmenter st (behandle_segment gpx_punkter (properties f)).

(** Step 3 of [prosesser_løyper], "Segmenter og match": the two nested
    loops. *)
Definition segmenter_og_match (features : list feature)
    (gpx_punkter : list (F * F)) : res tilstand :=
  for_each features start_tilstand (behandle_feature gpx_punkter).

Definition discovery (st : tilstand) : F :=
  if of_int 0 <? total_lengde_meter st
  then besøkt_lengde_meter st / total_lengde_meter st * of_int 100
  else of_int 0.

Record statistikk : Type := {
  total_km : F;
  besøkt_km : F;
  discovery_prosent : F
}.

Record resultat : Type := {
  segmenter : list segment_post;
  gpx_punkter : list (F * F);
  stats : statistikk
}.

(** The dictionary [prosesser_løyper] returns. *)
Definition svar (st : tilstand) (punkter : list (F * F)) (prosent : F)
    : resultat :=
  {| segmenter := alle_segmenter st;
     gpx_punkter := punkter;
     stats := {| total_km := total_lengde_meter st / of_int 1000;
                 besøkt_km := besøkt_lengde_meter st / of_int 1000;
                 discovery_prosent := prosent |} |}.

Definition prosesser_løyper (fs : filer) (geojson_file gpx_file : string)
    : IO resultat :=
  print MLinje ;;;
  print MProsesserer ;;;
  print MLinje ;;;
  print (MLeserLøyper geojson_file) ;;;
  features <~ run (les_geojson fs geojson_file) ;;
  print (MLastet (List.length features)) ;;;
  punkter <~ les_gpx fs gpx_file ;;
  print MTom ;;;
  print MSegmenterer ;;;
  st <~ run (segmenter_og_match features punkter) ;;
  print (MOpprettet (List.length (alle_segmenter st))) ;;;
  print (MTotalLengde (total_lengde_meter st / of_int 1000)) ;;;
  print (MBesøktLengde (besøkt_lengde_meter st / of_int 1000)) ;;;
  let prosent := discovery st in
  print (MDiscovery prosent) ;;;
  ([], Ok (svar st punkter prosent)).

End Discover.

Arguments feature : clear implicits.
Arguments filer : clear implicits.
Arguments gpx_point : clear implicits.
Arguments gpx_doc : clear implicits.
Arguments melding : clear implicits.
Arguments statistikk : clear implicits.
Arguments resultat F {shapely} Props.
Arguments tilstand F {shapely} Props.
Arguments segment_post F {shapely} Props.
Arguments start_tilstand {F num shapely Props}.

(** ** Order laws

    The claims about lengths and ratios only use that the arithmetic is
    monotone.  [NumLaws] collects those facts; they hold of exact
    arithmetic (instance [ExactLaws.num_laws]) and are the ones a
    round-to-nearest arithmetic keeps as long as no NaN or infinity
    appears. *)

Definition le {F : Type} {num : Num F} (x y : F) : Prop := leb x y = true.
Definition lt {F : Type} {num : Num F} (x y : F) : Prop := ltb x y = true.
Infix "<=" := le : num_scope.
Infix "<" := lt : num_scope.

Class NumLaws (F : Type) {num : Num F} : Prop := {
  le_refl : forall x : F, (x <= x)%num;
  le_trans : forall x y z : F, (x <= y -> y <= z -> x <= z)%num;
  lt_nonzero : forall x : F, (of_int 0 < x)%num -> is_zero x = false;
  of_int_le : forall m n : Z, (m <= n)%Z -> (of_int m <= of_int n)%num;
  hundred_pos : lt (of_int 0) (of_int 100 : F);
  add_le_mono : forall x y z : F, (x <= y -> x + z <= y + z)%num;
  add_nonneg_r : forall x z : F, (of_int 0 <= z -> x <= x + z)%num;
  mul_nonneg : forall x y : F,
    (of_int 0 <= x -> of_int 0 <= y -> of_int 0 <= x * y)%num;
  mul_le_mono : forall x y z : F,
    (x <= y -> of_int 0 <= z -> x * z <= y * z)%num;
  div_le_mono : forall x y z : F,
    (x <= y -> of_int 0 < z -> x / z <= y / z)%num;
  div_nonneg : forall x z : F,
    (of_int 0 <= x -> of_int 0 < z -> of_int 0 <= x / z)%num;
  div_self_le : forall z : F, (of_int 0 < z -> z / z <= of_int 1)%num;
  mul_one_hundred : le (mul (of_int 1) (of_int 100)) (of_int 100 : F)
}.

Arguments NumLaws F {num}.

Class MathLaws (F : Type) {num : Num F} {math : Math F} : Prop := {
  sqrt_nonneg : forall x r : F, math_sqrt x = Ok r -> (of_int 0 <= r)%num;
  atan2_nonneg : forall y x : F,
    (of_int 0 <= y -> of_int 0 <= x -> of_int 0 <= math_atan2 y x)%num
}.

Arguments MathLaws F {num math}.

(** ** A planar geometry back end

    A small executable model of the shapely calls, over any arithmetic:
    a geometry is its coordinate sequence, lengths are Euclidean in degree
    space, [substring] walks the vertices between two normalized
    distances, and a point is inside the buffer when its distance to the
    line is below the radius.  [LineString] rejects a single coordinate,
    as shapely does.  It is the back end the examples run on. *)

Section Planar.

Context {F : Type} {num : Num F} {math : Math F}.

Local Open Scope num_scope.

Definition like (x y : F) : bool := (x <=? y) && (y <=? x).

Definition planar_LineString (cs : list (F * F)) : res (list (F * F)) :=
  if Nat.eqb (List.length cs) 1 then Raise GEOSException else Ok cs.

Definition avstand (p q : F * F) : res F :=
  let dx := fst q - fst p in
  let dy := snd q - snd p in
  math_sqrt (dx * dx + dy * dy).

Fixpoint planar_length (acc : F) (cs : list (F * F)) : res F :=
  match cs with
  | p :: (q :: _) as rest =>
      d <- avstand p q ;; planar_length (acc + d) rest
  | _ => Ok acc
  end.

Fixpoint planar_interpolate (cs : list (F * F)) (d : F) : res (F * F) :=
  match cs with
  | [] => Raise GEOSException
  | [p] => Ok p
  | p :: (q :: _) as rest =>
      if d <=? of_int 0 then Ok p
      else
        l <- avstand p q ;;
        if d <? l then
          let t := d / l in
          Ok (fst p + t * (fst q - fst p), snd p + t * (snd q - snd p))
        else planar_interpolate rest (d - l)
  end.

(** The vertices strictly between the two distances. *)
Fixpoint planar_between (cs : list (F * F)) (start_dist end_dist cur : F)
    : res (list (F * F)) :=
  match cs with
  | p :: (q :: _) as rest =>
      if (start_dist <? cur) && (cur <? end_dist) then
        d <- avstand p q ;;
        r <- planar_between rest start_dist end_dist (cur + d) ;;
        Ok (p :: r)
      else if end_dist <=? cur then Ok []
      else
        d <- avstand p q ;;
        planar_between rest start_dist end_dist (cur + d)
  | _ => Ok []
  end.

Definition planar_substring (cs : list (F * F)) (start_frac end_frac : F)
    : res (list (F * F)) :=
  len <- planar_length (of_int 0) cs ;;
  if like start_frac end_frac then
    p <- planar_interpolate cs (start_frac * len) ;; Ok [p]
  else if (of_int 1 <=? start_frac) && (of_int 1 <=? end_frac) then
    p <- planar_interpolate cs len ;; Ok [p]
  else if (start_frac <? of_int 0) || (end_frac <? start_frac) then
    Raise GEOSException           (* reversed and negative slices: not modelled *)
  else
    let start_dist := start_frac * len in
    let end_dist := end_frac * len in
    start_point <- planar_interpolate cs start_dist ;;
    end_point <- planar_interpolate cs end_dist ;;
    mid <- planar_between cs start_dist end_dist (of_int 0) ;;
    planar_LineString (start_point :: mid ++ [end_point]).

Definition kvadrat_avstand (p a : F * F) : F :=
  let dx := fst p - fst a in
  let dy := snd p - snd a in
  dx * dx + dy * dy.

Definition kvadrat_avstand_segment (p a b : F * F) : F :=
  let abx := fst b - fst a in
  let aby := snd b - snd a in
  let l2 := abx * abx + aby * aby in
  if is_zero l2 then kvadrat_avstand p a
  else
    let t := ((fst p - fst a) * abx + (snd p - snd a) * aby) / l2 in
    let t := if t <? of_int 0 then of_int 0
             else if of_int 1 <? t then of_int 1 else t in
    kvadrat_avstand p (fst a + t * abx, snd a + t * aby).

Fixpoint planar_nær (cs : list (F * F)) (r2 : F) (p : F * F) : bool :=
  match cs with
  | [] => false
  | [a] => kvadrat_avstand p a <? r2
  | a :: (b :: _) as rest =>
      (kvadrat_avstand_segment p a b <? r2) || planar_nær rest r2 p
  end.

Definition planar_contains (poly : list (F * F) * F) (p : F * F) : bool :=
  let (cs, r) := poly in
  (of_int 0 <? r) && planar_nær cs (r * r) p.

Definition planar : Shapely F := {|
  geom := list (F * F);
  polygon := (list (F * F) * F)%type;
  LineString := planar_LineString;
  coords := fun cs => cs;
  substring := planar_substring;
  buffer := fun cs r => (cs, r);
  contains := planar_contains
|}.

End Planar.

(** ** Exact arithmetic *)

Module Exact.

Definition q_pow (x : Q) (n : Z) : res Q :=
  if Qeq_bool x 0 && (n <? 0)%Z then Raise ZeroDivisionError
  else Ok (Qred (Qpower x n)).

Definition q_int (x : Q) : res Z := Ok (Z.quot (Qnum x) (Zpos (Qden x))).

#[export] Instance num : Num Q := {|
  of_int := inject_Z;
  add := fun x y => Qred (Qplus x y);
  sub := fun x y => Qred (Qminus x y);
  mul := fun x y => Qred (Qmult x y);
  div := fun x y => Qred (Qdiv x y);
  is_zero := fun x => Qeq_bool x 0;
  ltb := fun x y => negb (Qle_bool y x);
  leb := Qle_bool;
  pow := q_pow;
  int := q_int
|}.

(** A rational stand-in for the [math] module: short Taylor sums for
    [sin] and [cos], an integer square root scaled to fifteen decimals and
    a rational approximation of [atan2]. *)

Definition q_pi : Q := 355 # 113.

Definition q_radians (x : Q) : Q := Qred (x * q_pi / inject_Z 180).

Definition q_sin (x : Q) : res Q :=
  Ok (Qred (x - x * x * x / inject_Z 6
              + x * x * x * x * x / inject_Z 120)).

Definition q_cos (x : Q) : res Q :=
  Ok (Qred (1 - x * x / inject_Z 2 + x * x * x * x / inject_Z 24)).

Definition q_sqrt (x : Q) : res Q :=
  if Qle_bool 0 x
  then Ok (Qred (Z.sqrt (Qnum x * 10 ^ 30 / Zpos (Qden x)) # 10 ^ 15))
  else Raise ValueError.

(** [atan t] for [0 <= |t| <= 1] *)
Definition q_atan_unit (t : Q) : Q := (t / (1 + (28 # 100) * t * t))%Q.

Definition q_atan2 (y x : Q) : Q :=
  if Qle_bool (Qabs y) (Qabs x) then
    if Qeq_bool x 0 then 0%Q
    else
      let b := q_atan_unit (y / x) in
      if Qle_bool 0 x then Qred b
      else if Qle_bool 0 y then Qred (b + q_pi)
      else Qred (b - q_pi)
  else
    let b := q_atan_unit (x / y) in
    if Qle_bool 0 y then Qred (q_pi / inject_Z 2 - b)
    else Qred (- q_pi / inject_Z 2 - b).

#[export] Instance math : Math Q := {|
  math_radians := q_radians;
  math_sin := q_sin;
  math_cos := q_cos;
  math_sqrt := q_sqrt;
  math_atan2 := q_atan2
|}.

End Exact.

(** ** IEEE binary64 arithmetic

    Python's [float] is the platform double.  The arithmetic operators and
    [sqrt] are the correctly rounded primitives; [sin], [cos], [atan2] and
    [pow] are the C library's and are taken as a record [libm].  CPython's
    wrappers turn a NaN or infinite result on a finite argument into an
    exception. *)

Module IEEE.

(** [float(z)]: round to nearest, ties to even *)
Definition f_of_int (z : Z) : float :=
  FloatOps.SF2Prim
    (SpecFloat.binary_normalize FloatOps.prec FloatOps.emax z 0 false).

(** [int(x)]: NaN and the infinities raise, the rest is truncated *)
Definition f_int (x : float) : res Z :=
  match FloatOps.Prim2SF x with
  | SpecFloat.S754_nan => Raise ValueError
  | SpecFloat.S754_infinity _ => Raise OverflowError
  | SpecFloat.S754_zero _ => Ok 0
  | SpecFloat.S754_finite s m e =>
      let v := match e with
               | Z0 => Zpos m
               | Zpos p => Z.shiftl (Zpos m) (Zpos p)
               | Zneg p => Z.shiftr (Zpos m) (Zpos p)
               end in
      Ok (if s then - v else v)
  end.

Record libm : Type := {
  c_sin : float -> float;
  c_cos : float -> float;
  c_atan2 : float -> float -> float;
  c_pow : float -> float -> float
}.

(** [math_1] of mathmodule.c, for the functions that cannot overflow *)
Definition math_1 (func : float -> float) (x : float) : res float :=
  let r := func x in
  if is_nan r && negb (is_nan x) then Raise ValueError
  else if is_infinity r && is_finite x then Raise ValueError
  else Ok r.

(** [x ** n] for a float [x] and an int [n] *)
Definition float_pow (lm : libm) (x : float) (n : Z) : res float :=
  if PrimFloat.eqb x 0 && (n <? 0)%Z then Raise ZeroDivisionError
  else
    let r := c_pow lm x (f_of_int n) in
    if is_infinity r && is_finite x then Raise OverflowError else Ok r.

(** [Py_MATH_PI / 180.0] *)
Definition degToRad : float := 0x1.1df46a2529d39p-6.

Definition num (lm : libm) : Num float := {|
  of_int := f_of_int;
  add := PrimFloat.add;
  sub := PrimFloat.sub;
  mul := PrimFloat.mul;
  div := PrimFloat.div;
  is_zero := fun x => PrimFloat.eqb x 0;
  ltb := PrimFloat.ltb;
  leb := PrimFloat.leb;
  pow := float_pow lm;
  int := f_int
|}.

Definition math (lm : libm) : Math float := {|
  math_radians := fun x => PrimFloat.mul x degToRad;
  math_sin := math_1 (c_sin lm);
  math_cos := math_1 (c_cos lm);
  math_sqrt := math_1 PrimFloat.sqrt;
  math_atan2 := c_atan2 lm
|}.

(** The values the C library returns at the arguments that occur in the
    examples below (glibc 2.36, x86-64, as CPython 3.11 reports them with
    [float.hex]).  Outside the table the result is NaN, which the wrappers
    turn into an exception. *)

Fixpoint oppslag (tab : list (float * float)) (x : float) : float :=
  match tab with
  | [] => nan
  | (k, v) :: rest => if PrimFloat.eqb k x then v else oppslag rest x
  end.

Fixpoint oppslag2 (tab : list (float * float * float)) (x y : float)
    : float :=
  match tab with
  | [] => nan
  | (k1, k2, v) :: rest =>
      if PrimFloat.eqb k1 x && PrimFloat.eqb k2 y then v
      else oppslag2 rest x y
  end.

Definition glibc : libm := {|
  c_sin := oppslag
    [ (-0x1.1df46a2529d39p-3, -0x1.1d06c968d9e19p-3);
      (0x1.921fb54442d18p+0, 0x1.0000000000000p+0);
      (0x1.1df46a2529d39p-17, 0x1.1df46a251af5dp-17);
      (0, 0) ]%float;
  c_cos := oppslag
    [ (0x1.1df46a2529d39p-3, 0x1.fb046a930947ap-1);
      (-0x1.1df46a2529d39p-3, 0x1.fb046a930947ap-1);
      (0x1.108cf52b6bddap+0, 0x1.f071eedefa0eep-2);
      (0x1.108e131fd602dp+0, 0x1.f06e0675ac18fp-2) ]%float;
  c_atan2 := oppslag2
    [ (0x1.1df46a251af5dp-17, 0x1.ffffffffb0257p-1,
       0x1.1df46a2529d39p-17) ]%float;
  c_pow := oppslag2
    [ (-0x1.1d06c968d9e19p-3, 2, 0x1.3d581ca184804p-6);
      (1, 2, 1);
      (0x1.1df46a251af5dp-17, 2, 0x1.3f6a1db120c57p-34);
      (0, 2, 0) ]%float
|}.

#[export] Instance num_glibc : Num float := num glibc.
#[export] Instance math_glibc : Math float := math glibc.

End IEEE.

(** ** What the claims speak of

    Definitions that follow the words of the specification, to be compared
    with the code. *)

Section Spesifikasjon.

Context {F : Type} {num : Num F} {math : Math F} {shapely : Shapely F}.
Context {Props : Type}.

Local Open Scope num_scope.

(** The consecutive pairs of a coordinate sequence. *)
Fixpoint nabopar (cs : list (F * F)) : list ((F * F) * (F * F)) :=
  match cs with
  | p :: (q :: _) as rest => (p, q) :: nabopar rest
  | _ => []
  end.

(** The sum, from the left and starting at 0, of the haversine distances
    of the consecutive pairs. *)
Definition haversine_sum (cs : list (F * F)) : res F :=
  for_each (nabopar cs) (of_int 0) (fun total pq =>
    h <- haversine (fst (fst pq)) (snd (fst pq))
                   (fst (snd pq)) (snd (snd pq)) ;;
    Ok (total + h)).

(** Slice [i] of [antall]: the sub-line between the fractions [i/antall]
    and [(i+1)/antall], when shapely returns one. *)
Definition snitt (g : geom) (antall i : Z) : res geom :=
  substring g (of_int i / of_int antall) (of_int (i + 1) / of_int antall).

(** The slices [0 .. antall-1] in that order, the failing ones left out. *)
Definition alle_snitt (g : geom) (antall : Z) : list geom :=
  flat_map (fun i => match snitt g antall i with
                     | Ok s => [s]
                     | Raise _ => []
                     end) (range antall).

(** The loop invariant: the visited length is non-negative and at most the
    total length. *)
Definition gyldig (st : tilstand F Props) : Prop :=
  of_int 0 <= besøkt_lengde_meter st /\
  besøkt_lengde_meter st <= total_lengde_meter st.

(** The same segment, possibly visited where it was not before. *)
Definition minst_like_besøkt (s1 s2 : segment_post F Props) : Prop :=
  seg_geometry s1 = seg_geometry s2 /\
  seg_lengde s1 = seg_lengde s2 /\
  seg_properties s1 = seg_properties s2 /\
  (seg_besøkt s1 = true -> seg_besøkt s2 = true).

(** Two states of the loop, the second run on a longer track. *)
Definition utvidet (st1 st2 : tilstand F Props) : Prop :=
  total_lengde_meter st2 = total_lengde_meter st1 /\
  besøkt_lengde_meter st1 <= besøkt_lengde_meter st2 /\
  Forall2 minst_like_besøkt (alle_segmenter st1) (alle_segmenter st2).

End Spesifikasjon.

(** ** Example inputs *)

Module Eksempel.

Import Exact.

Definition planar_Q : Shapely Q := planar.

(** A line of about 111 m, one of about 334 m, an empty geometry and a
    geometry of a single position. *)
Definition løype_kort : feature Q string :=
  {| geometry_coordinates := [(10, 61); (10, 61001 # 1000)]%Q;
     properties := "kort"%string |}.
Definition løype_lang : feature Q string :=
  {| geometry_coordinates := [(10, 61); (10, 61003 # 1000)]%Q;
     properties := "lang"%string |}.
Definition løype_tom : feature Q string :=
  {| geometry_coordinates := []; properties := "tom"%string |}.
Definition løype_ett_punkt : feature Q string :=
  {| geometry_coordinates := [(10, 61)]%Q; properties := "punkt"%string |}.

Definition spor_start : list (Q * Q) := [(10, 61)]%Q.

(** Two trail files and three tracks on disk. *)
Definition disk : filer Q string := {|
  les_geojson := fun fil =>
    if String.eqb fil "loyper.geojson" then Ok [løype_lang; løype_kort]
    else if String.eqb fil "kort.geojson" then Ok [løype_kort]
    else Raise FileNotFoundError;
  les_gpx_fil := fun fil =>
    if String.eqb fil "tomt.gpx" then Ok []
    else if String.eqb fil "start.gpx" then
      Ok [[[ {| longitude := 10; latitude := 61 |} ]]]%Q
    else if String.eqb fil "to.gpx" then
      Ok [[[ {| longitude := 10; latitude := 61 |} ];
           [ {| longitude := 10; latitude := 61003 # 1000 |} ]]]%Q
    else Raise FileNotFoundError
|}.

(** The same disk after an unrelated file was added. *)
Definition disk' : filer Q string := {|
  les_geojson := fun fil =>
    if String.eqb fil "andre.geojson" then Ok [løype_tom]
    else les_geojson disk fil;
  les_gpx_fil := les_gpx_fil disk
|}.

(** A back end on which every [substring] call raises. *)
Definition sviktende : Shapely Q := {|
  geom := list (Q * Q);
  polygon := (list (Q * Q) * Q)%type;
  LineString := planar_LineString;
  coords := fun cs => cs;
  substring := fun _ _ _ => Raise GEOSException;
  buffer := fun cs r => (cs, r);
  contains := planar_contains
|}.

(** IEEE inputs: two positions 2^-10 degrees of latitude apart, and two
    nearly antipodal positions. *)
Definition planar_f : @Shapely float := @planar float IEEE.num_glibc IEEE.math_glibc.

Definition løype_ett_punkt_f : feature float string :=
  {| geometry_coordinates := [(10, 61)]%float;
     properties := "punkt"%string |}.

Definition løype_f : feature float string :=
  {| geometry_coordinates := [(10, 61); (10, 61.0009765625)]%float;
     properties := "kort"%string |}.

Definition disk_f : filer float string := {|
  les_geojson := fun fil =>
    if String.eqb fil "kort.geojson" then Ok [løype_f]
    else Raise FileNotFoundError;
  les_gpx_fil := fun fil =>
    if String.eqb fil "start.gpx" then
      Ok [[[ {| longitude := 10; latitude := 61 |} ]]]%float
    else Raise FileNotFoundError
|}.

Definition antipoder : list (float * float) := [(0, 8); (180, -8)]%float.

Definition løype_antipoder : feature float string :=
  {| geometry_coordinates := antipoder; properties := "antipoder"%string |}.

End Eksempel.

(** ** The map and the entry point: [lag_kart] and [main]

    A folium map is the record of what was put on it: its centre, zoom and
    tiles, the polylines added to it, and the leaderboard element.  A run
    of [main] is the list of what it printed and saved. *)

(** [folium.PolyLine(coords, color=..., weight=..., opacity=..., popup=...)];
    its coordinates are (lat, lon). *)
Record polyline (F : Type) : Type := {
  pl_coords : list (F * F);
  pl_color : string;
  pl_weight : Z;
  pl_opacity : F;
  pl_popup : option string
}.

(** The values interpolated into the leaderboard HTML. *)
Record leaderboard (F : Type) : Type := {
  lb_prosent : F;
  lb_besøkt_km : F;
  lb_total_km : F;
  lb_besøkt : nat;
  lb_ikke_besøkt : nat
}.

Record kart (F : Type) : Type := {
  k_location : F * F;                (* [lat, lon] *)
  k_zoom_start : Z;
  k_tiles : string;
  k_linjer : list (polyline F);      (* in the order they were added *)
  k_html : list (leaderboard F)
}.

(** The builtin [sum] over a sequence of floats; how it rounds depends on
    the interpreter. *)
Class Python (F : Type) : Type := {
  py_sum : list F -> F
}.

(** The three folium calls that can raise: [Map] validates its location,
    [PolyLine] its locations, and [save] renders and writes a file. *)
Class Folium (F : Type) : Type := {
  validate_location : F * F -> res unit;
  validate_locations : list (F * F) -> res unit;
  save : kart F -> string -> res unit
}.

Section Kart.

Context {F : Type} {num : Num F} {math : Math F} {shapely : Shapely F}.
Context {python : Python F} {folium : Folium F} {Props : Type}.

Local Open Scope num_scope.

(** The float literal with the decimal value [m / n]: the correctly rounded
    quotient of two exactly represented integers. *)
Definition desimal (m n : Z) : F := of_int m / of_int n.

(** Everything [lag_kart] and [main] do to the outside: the lines printed
    by [prosesser_løyper], their own [print] calls, and [m.save]. *)
Inductive hendelse : Type :=
| HProsesser (m : melding F)
| HLagerKart                                (* "Lager kart..." *)
| HSave (fil : string) (m : kart F)         (* m.save(output_file) wrote the file *)
| HKartLagret (fil : string)                (* "Kart lagret: ..." *)
| HLinje                                    (* the rule of 70 "=" *)
| HTittel                                   (* "Discover Skiløyper - Gausdal Kommune" *)
| HTom                                      (* print() *)
| HFinnerIkke (fil : string)                (* "Finner ikke: ..." *)
| HKjørFørst                                (* "Kjør først: python hent_skiløyper_osm.py" *)
| HFerdig                                   (* "FERDIG!" *)
| HGratulerer                               (* "Gratulerer, Ulrik!" *)
| HDiscoveret (prosent : F)                 (* "Du har discoveret ...% av skiløypenettet" *)
| HAvKm (besøkt_km total_km : F)            (* "(... av ... km)" *)
| HÅpne (fil : string).                     (* "Åpne ... for å se resultatet!" *)

Definition Kjøring (A : Type) : Type := (list hendelse * res A)%type.

Definition k_bind {A B : Type} (m : Kjøring A) (k : A -> Kjøring B)
    : Kjøring B :=
  match m with
  | (out, Ok a) => let (out', r) := k a in (out ++ out', r)
  | (out, Raise e) => (out, Raise e)
  end.

Definition gjør (h : hendelse) : Kjøring unit := ([h], Ok tt).

(** A call of [prosesser_løyper]: its lines are printed, its value or
    exception passed on. *)
Definition kall {A : Type} (m : @IO F A) : Kjøring A :=
  (map HProsesser (utskrift m), verdi m).

Notation "x <~ m ;; k" := (k_bind m (fun x => k))
  (at level 61, m at next level, right associativity).
Notation "m ;;; k" := (k_bind m (fun _ => k))
  (at level 61, right associativity).

(** [x / len(xs)] *)
Definition del_på_antall (x : F) (n : nat) : res F :=
  if Nat.eqb n 0 then Raise ZeroDivisionError
  else Ok (x / of_int (Z.of_nat n)).

(** "Finn sentrum av kartet": the mean position of the track, or Gausdal
    when the track is empty. *)
Definition sentrum (gpx_punkter : list (F * F)) : res (F * F) :=
  match gpx_punkter with
  | _ :: _ =>
      center_lon <- del_på_antall (py_sum (map fst gpx_punkter))
                      (List.length gpx_punkter) ;;
      center_lat <- del_på_antall (py_sum (map snd gpx_punkter))
                      (List.length gpx_punkter) ;;
      Ok (center_lat, center_lon)
  | [] => Ok (desimal 613 10, desimal 101 10)
  end.

(** [[(lat, lon) for lon, lat in coords]] *)
Definition lat_lon (cs : list (F * F)) : list (F * F) :=
  map (fun '(lon, lat) => (lat, lon)) cs.

Definition add_to (l : polyline F) (m : kart F) : kart F :=
  {| k_location := k_location m; k_zoom_start := k_zoom_start m;
     k_tiles := k_tiles m; k_linjer := k_linjer m ++ [l];
     k_html := k_html m |}.

Definition add_child (e : leaderboard F) (m : kart F) : kart F :=
  {| k_location := k_location m; k_zoom_start := k_zoom_start m;
     k_tiles := k_tiles m; k_linjer := k_linjer m;
     k_html := k_html m ++ [e] |}.

(** [folium.Map(location=[lat, lon], zoom_start=..., tiles=...)] *)
Definition Map (location : F * F) (zoom_start : Z) (tiles : string)
    : res (kart F) :=
  _ <- validate_location location ;;
  Ok {| k_location := location; k_zoom_start := zoom_start;
        k_tiles := tiles; k_linjer := []; k_html := [] |}.

(** [folium.PolyLine(locations, color, weight, opacity, popup)] *)
Definition PolyLine (locations : list (F * F)) (color : string)
    (weight : Z) (opacity : F) (popup : option string)
    : res (polyline F) :=
  _ <- validate_locations locations ;;
  Ok {| pl_coords := locations; pl_color := color; pl_weight := weight;
        pl_opacity := opacity; pl_popup := popup |}.

(** Body of [for segment in segmenter] in [lag_kart]. *)
Definition tegn_segment (m : kart F) (segment : segment_post F Props)
    : res (kart F) :=
  let cs := lat_lon (coords (seg_geometry segment)) in
  let color := if seg_besøkt segment then "green"%string
               else "red"%string in
  l <- PolyLine cs color 5 (desimal 8 10) None ;;
  Ok (add_to l m).

Definition lag_kart (data : resultat F Props) (output_file : string)
    : Kjøring (kart F) :=
  gjør HLagerKart ;;;
  let segmenter := segmenter data in
  let gpx_punkter := gpx_punkter data in
  let stats := stats data in
  senter <~ ([], sentrum gpx_punkter) ;;
  m <~ ([], Map senter 12 "OpenStreetMap") ;;
  m <~ ([], for_each segmenter m tegn_segment) ;;
  let gpx_coords := lat_lon gpx_punkter in
  l <~ ([], PolyLine gpx_coords "blue" 2 (desimal 6 10)
              (Some "Din rute"%string)) ;;
  let m := add_to l m in
  let m := add_child
    {| lb_prosent := discovery_prosent stats;
       lb_besøkt_km := besøkt_km stats;
       lb_total_km := total_km stats;
       lb_besøkt :=
         List.length (filter (fun s => seg_besøkt s) segmenter);
       lb_ikke_besøkt :=
         List.length (filter (fun s => negb (seg_besøkt s)) segmenter) |}
    m in
  _ <~ ([], save m output_file) ;;
  gjør (HSave output_file m) ;;;
  gjør (HKartLagret output_file) ;;;
  ([], Ok m).

(** What [main] can see of the machine: which paths exist, and what the
    files hold. *)
Record maskin : Type := {
  finnes : string -> bool;                (* Path(p).exists() *)
  filene : filer F Props
}.

Definition geojson_file : string := "Skiløyper_Gausdal.geojson".
Definition gpx_file : string :=
  "C:\Users\no-ular\Downloads\Utaskjærs_til_Fykse_m_petz.gpx".
Definition output_file : string := "discovery_kart_gausdal.html".

Definition main (w : maskin) : Kjøring unit :=
  gjør HLinje ;;;
  gjør HTittel ;;;
  gjør HLinje ;;;
  gjør HTom ;;;
  if negb (finnes w geojson_file) then
    gjør (HFinnerIkke geojson_file) ;;;
    gjør HKjørFørst ;;;
    ([], Ok tt)
  else if negb (finnes w gpx_file) then
    gjør (HFinnerIkke gpx_file) ;;;
    ([], Ok tt)
  else
    data <~ kall (prosesser_løyper (filene w) geojson_file gpx_file) ;;
    _ <~ lag_kart data output_file ;;
    gjør HLinje ;;;
    gjør HFerdig ;;;
    gjør HLinje ;;;
    gjør HGratulerer ;;;
    gjør (HDiscoveret (discovery_prosent (stats data))) ;;;
    gjør (HAvKm (besøkt_km (stats data)) (total_km (stats data))) ;;;
    gjør (HÅpne output_file) ;;;
    ([], Ok tt).

End Kart.

Arguments hendelse : clear implicits.
Arguments Kjøring : clear implicits.
Arguments maskin : clear implicits.


(** ** Further notions the properties speak of *)

Section Spesifikasjon2.

Context {F : Type} {num : Num F} {math : Math F} {shapely : Shapely F}.
Context {Props : Type}.

Local Open Scope num_scope.

(** The number of points of a GPX document. *)
Definition antall_punkter (gpx : gpx_doc F) : nat :=
  list_sum (map (fun track =>
    list_sum (map (fun segment => List.length segment) track)) gpx).

(** The segments one trail gives, each with the trail's properties. *)
Definition løype_segmenter (f : feature F Props)
    : res (list (geom * Props)) :=
  linestring <- LineString (geometry_coordinates f) ;;
  segmenter <- segmenter_løype linestring (of_int 100) ;;
  Ok (map (fun s => (s, properties f)) segmenter).

(** The sum of the lengths of a list of segments, from the left. *)
Definition sum_lengde (segs : list (segment_post F Props)) : F :=
  fold_left add (map (fun s => seg_lengde s) segs) (of_int 0).

(** A segment of the result, as its geometry and its properties. *)
Definition nøkkel (s : segment_post F Props) : geom * Props :=
  (seg_geometry s, seg_properties s).

(** What the accumulators hold, in terms of the list of segments. *)
Definition regnskap (punkter : list (F * F)) (st : tilstand F Props)
    : Prop :=
  Forall (fun s =>
            beregn_linje_lengde (seg_geometry s) = Ok (seg_lengde s) /\
            seg_besøkt s =
              sjekk_segment_besøkt (seg_geometry s) punkter (of_int 50))
         (alle_segmenter st)
  /\ total_lengde_meter st = sum_lengde (alle_segmenter st)
  /\ besøkt_lengde_meter st =
       sum_lengde (filter (fun s => seg_besøkt s) (alle_segmenter st)).

(** The line [lag_kart] draws for a segment. *)
Definition tegnet (s : segment_post F Props) (l : polyline F) : Prop :=
  pl_coords l = lat_lon (coords (seg_geometry s))
  /\ pl_color l = (if seg_besøkt s then "green" else "red")%string
  /\ pl_weight l = 5%Z
  /\ pl_popup l = None.

(** The number of lines of a colour on a map. *)
Definition antall_linjer (color : string) (linjer : list (polyline F))
    : nat :=
  List.length (filter (fun l => String.eqb (pl_color l) color) linjer).

End Spesifikasjon2.

(** ** Example machines for [lag_kart] and [main] *)

Module Kjøringer.

Import Exact.

(** [sum] in exact arithmetic. *)
Definition python_Q : Python Q :=
  {| py_sum := fun xs => fold_left (@add Q Exact.num) xs (of_int 0) |}.

(** A folium that accepts every location, refuses an empty list of
    locations, and writes everywhere but into the directory "borte". *)
Definition folium_Q : Folium Q := {|
  validate_location := fun _ => Ok tt;
  validate_locations := fun locations =>
    match locations with
    | [] => Raise ValueError
    | _ :: _ => Ok tt
    end;
  save := fun _ fil =>
    if String.prefix "borte/" fil then Raise FileNotFoundError else Ok tt
|}.

(** The same folium on a disk that cannot be written. *)
Definition folium_skrivebeskyttet : Folium Q := {|
  validate_location := @validate_location Q folium_Q;
  validate_locations := @validate_locations Q folium_Q;
  save := fun _ _ => Raise FileNotFoundError
|}.

(** The two input files of [main]: two trails and a track of one point. *)
Definition disk_main : filer Q string := {|
  les_geojson := fun fil =>
    if String.eqb fil geojson_file
    then Ok [Eksempel.løype_lang; Eksempel.løype_kort]
    else Raise FileNotFoundError;
  les_gpx_fil := fun fil =>
    if String.eqb fil gpx_file
    then Ok [[[ {| longitude := 10; latitude := 61 |} ]]]%Q
    else Raise FileNotFoundError
|}.

(** A disk without files. *)
Definition disk_tom : filer Q string := {|
  les_geojson := fun _ => Raise FileNotFoundError;
  les_gpx_fil := fun _ => Raise FileNotFoundError
|}.

(** Both files in place; the track missing; and both files reported to
    exist but gone when they are opened. *)
Definition maskin_klar : maskin Q string :=
  {| finnes := fun _ => true; filene := disk_main |}.
Definition maskin_uten_spor : maskin Q string :=
  {| finnes := fun fil => String.eqb fil geojson_file;
     filene := disk_main |}.
Definition maskin_slettet : maskin Q string :=
  {| finnes := fun _ => true; filene := disk_tom |}.

(** A result with no segment and an empty track. *)
Definition data_tom : @resultat Q Eksempel.planar_Q string :=
  {| segmenter := []; gpx_punkter := [];
     stats := {| total_km := 0; besøkt_km := 0;
                 discovery_prosent := 0 |}%Q |}.

End Kjøringer.

(** * Proofs *)

(** ** Reasoning about [res] and loops *)

Lemma bind_Ok {A B : Type} (m : res A) (k : A -> res B) (b : B) :
  bind m k = Ok b -> exists a, m = Ok a /\ k a = Ok b.
Proof.
  destruct m as [a | e]; cbn; intro H; [eauto | discriminate].
Qed.

Ltac bind_inv H :=
  let a := fresh "v" in
  let E := fresh "E" in
  apply bind_Ok in H; destruct H as (a & E & H).

Lemma for_each_app {A B : Type} (xs ys : list A) (st : B)
    (body : B -> A -> res B) :
  for_each (xs ++ ys) st body =
  (st' <- for_each xs st body ;; for_each ys st' body).
Proof.
  revert st. induction xs as [| x xs IH]; intro st; cbn; [reflexivity |].
  destruct (body st x); cbn; [apply IH | reflexivity].
Qed.

(** A property kept by every iteration holds when the loop ends. *)
Lemma for_each_inv {A B : Type} (P : B -> Prop) (xs : list A)
    (body : B -> A -> res B) :
  (forall st x st', P st -> body st x = Ok st' -> P st') ->
  forall st st', P st -> for_each xs st body = Ok st' -> P st'.
Proof.
  intro Hstep. induction xs as [| x xs IH]; cbn; intros st st' HP H.
  - injection H as <-. exact HP.
  - bind_inv H. eauto.
Qed.

Lemma In_range (n i : Z) : In i (range n) <-> (0 <= i < n)%Z.
Proof.
  unfold range. rewrite in_map_iff. split.
  - intros (k & <- & Hk). apply in_seq in Hk. lia.
  - intros Hi. exists (Z.to_nat i). split; [lia |]. apply in_seq. lia.
Qed.

(** Closed goals are settled by evaluation: [beregnet] checks an equation
    between a run and its value, [kjør_ut] names the value a run returns. *)
Ltac beregnet :=
  unfold lt, le;
  match goal with |- _ = ?y => vm_cast_no_check (eq_refl y) end.
Ltac kjør_ut t :=
  let v := eval vm_compute in t in
  match v with Ok ?r => exists r end.

(** ** The order laws hold of exact arithmetic *)

Module ExactLaws.

Import Exact.

Lemma qlt_iff (x y : Q) : negb (Qle_bool y x) = true <-> (x < y)%Q.
Proof.
  rewrite negb_true_iff, <- not_true_iff_false, Qle_bool_iff.
  split; [apply Qnot_le_lt | apply Qlt_not_le].
Qed.

Ltac to_Q :=
  unfold le, lt; cbn [leb ltb add sub mul div of_int is_zero num];
  intros; rewrite ?qlt_iff, ?Qle_bool_iff in *; rewrite ?Qred_correct in *.

Lemma q_div_nonneg (x z : Q) : (0 <= x -> 0 < z -> 0 <= x / z)%Q.
Proof.
  intros Hx Hz. unfold Qdiv. apply Qmult_le_0_compat; [exact Hx |].
  apply Qinv_le_0_compat, Qlt_le_weak, Hz.
Qed.

#[export] Instance num_laws : NumLaws Q.
Proof.
  constructor; to_Q.
  - apply Qle_refl.
  - eapply Qle_trans; eassumption.
  - destruct (Qeq_bool x 0) eqn:E; [| reflexivity].
    apply Qeq_bool_iff in E. rewrite E in H. discriminate H.
  - rewrite <- Zle_Qle. assumption.
  - reflexivity.
  - lra.
  - change (inject_Z 0) with 0%Q in H. lra.
  - apply Qmult_le_0_compat; assumption.
  - apply Qmult_le_compat_r; assumption.
  - unfold Qdiv. apply Qmult_le_compat_r; [assumption |].
    apply Qinv_le_0_compat, Qlt_le_weak. assumption.
  - apply q_div_nonneg; assumption.
  - unfold Qdiv. rewrite Qmult_inv_r.
    + discriminate.
    + intro E. rewrite E in H. discriminate H.
  - discriminate.
Qed.

Lemma q_atan_unit_bounds (t : Q) :
  (0 <= t)%Q -> (0 <= q_atan_unit t)%Q /\ (q_atan_unit t <= t)%Q.
Proof.
  intro Ht. unfold q_atan_unit.
  assert (Hd : (1 <= 1 + (28 # 100) * t * t)%Q).
  { assert (0 <= (28 # 100) * t * t)%Q; [| lra].
    rewrite <- Qmult_assoc.
    apply Qmult_le_0_compat; [discriminate |].
    apply Qmult_le_0_compat; assumption. }
  split.
  - apply q_div_nonneg; [assumption | lra].
  - apply Qle_shift_div_r; [lra |].
    setoid_replace t with (t * 1)%Q at 1 by ring.
    apply Qmult_le_compat_nonneg; split;
      [assumption | apply Qle_refl | discriminate | assumption].
Qed.

#[export] Instance math_laws : MathLaws Q.
Proof.
  constructor.
  - intros x r. cbn [math_sqrt math]. unfold q_sqrt.
    destruct (Qle_bool 0 x); [| discriminate].
    set (v := Qred _). intros [= <-]. subst v. to_Q.
    unfold Qle, inject_Z. cbn [Qnum Qden].
    rewrite Z.mul_0_l, Z.mul_1_r. apply Z.sqrt_nonneg.
  - intros y x. cbn [math_atan2 math]. unfold q_atan2. to_Q.
    change (inject_Z 0) with 0%Q in *.
    destruct (Qle_bool (Qabs y) (Qabs x)) eqn:Hyx.
    + destruct (Qeq_bool x 0) eqn:Ex; [discriminate |].
      rewrite (proj2 (Qle_bool_iff 0 x) H0), Qred_correct.
      apply Qeq_bool_neq in Ex.
      apply q_atan_unit_bounds, q_div_nonneg; [assumption |].
      apply Qnot_le_lt. intro Hle. apply Ex. lra.
    + rewrite (proj2 (Qle_bool_iff 0 y) H), Qred_correct.
      assert (Hlt : (x < y)%Q).
      { apply Qnot_le_lt. intro Hle.
        rewrite <- not_true_iff_false, Qle_bool_iff in Hyx. apply Hyx.
        rewrite (Qabs_pos y H), (Qabs_pos x H0). exact Hle. }
      assert (Hy : (0 < y)%Q) by lra.
      assert (Hs : (0 <= x / y)%Q) by (apply q_div_nonneg; assumption).
      assert (Hs1 : (x / y <= 1)%Q).
      { apply Qle_shift_div_r; [exact Hy | lra]. }
      destruct (q_atan_unit_bounds Hs) as [_ Hb].
      unfold q_pi. change (inject_Z 2) with 2%Q.
      assert (Hpi : ((355 # 113) / 2 == 355 # 226)%Q) by reflexivity.
      rewrite Hpi.
      assert (H1 : (1 <= 355 # 226)%Q) by discriminate.
      lra.
Qed.

End ExactLaws.

(** ** GeometryMetrics: [beregn_linje_lengde] *)

Section Lengde.

Context {F : Type} {num : Num F} {math : Math F} {shapely : Shapely F}.

Local Open Scope num_scope.

Lemma getitem_app {A : Type} (pre rest : list A) (x : A) :
  getitem (pre ++ x :: rest) (List.length pre) = Ok x.
Proof.
  unfold getitem. rewrite nth_error_app2 by lia.
  rewrite Nat.sub_diag. reflexivity.
Qed.

Lemma beregn_loop (rest pre : list (F * F)) (acc : F) :
  for_each (seq (List.length pre) (List.length rest - 1)) acc
    (fun total i =>
       '(lon1, lat1) <- getitem (pre ++ rest) i ;;
       '(lon2, lat2) <- getitem (pre ++ rest) (i + 1) ;;
       h <- haversine lon1 lat1 lon2 lat2 ;;
       Ok (total + h))
  = for_each (nabopar rest) acc (fun total pq =>
      h <- haversine (fst (fst pq)) (snd (fst pq))
                     (fst (snd pq)) (snd (snd pq)) ;;
      Ok (total + h)).
Proof.
  revert pre acc.
  induction rest as [| p rest IH]; intros pre acc; [reflexivity |].
  destruct rest as [| q rest]; [reflexivity |].
  cbn [List.length Nat.sub nabopar]. cbn [seq for_each].
  rewrite getitem_app.
  replace (pre ++ p :: q :: rest) with ((pre ++ [p]) ++ q :: rest)
    by (rewrite <- app_assoc; reflexivity).
  replace (List.length pre + 1)%nat with (List.length (pre ++ [p]))
    by (rewrite length_app; reflexivity).
  rewrite getitem_app.
  destruct p as [lon1 lat1], q as [lon2 lat2]. cbn [bind fst snd].
  destruct (haversine lon1 lat1 lon2 lat2) as [h | e]; cbn [bind];
    [| reflexivity].
  specialize (IH (pre ++ [(lon1, lat1)]) (acc + h)).
  cbn [List.length Nat.sub] in IH. rewrite Nat.sub_0_r in IH.
  replace (S (List.length pre)) with (List.length (pre ++ [(lon1, lat1)]))
    by (rewrite length_app; cbn; lia).
  exact IH.
Qed.

Lemma beregn_linje_lengde_sum (g : geom) :
  beregn_linje_lengde g = haversine_sum (coords g).
Proof.
  unfold beregn_linje_lengde, haversine_sum.
  exact (beregn_loop (coords g) [] (of_int 0)).
Qed.

Lemma beregn_linje_lengde_kort (g : geom) :
  (List.length (coords g) < 2)%nat -> beregn_linje_lengde g = Ok (of_int 0).
Proof.
  intro H. unfold beregn_linje_lengde.
  destruct (coords g) as [| p [| q r]]; cbn in *; [reflexivity .. | lia].
Qed.

Context {num_laws : NumLaws F} {math_laws : MathLaws F}.

Lemma haversine_nonneg (lon1 lat1 lon2 lat2 h : F) :
  haversine lon1 lat1 lon2 lat2 = Ok h -> of_int 0 <= h.
Proof.
  unfold haversine. intro H.
  do 8 bind_inv H. injection H as <-.
  apply mul_nonneg; [apply of_int_le; lia |].
  apply mul_nonneg; [apply of_int_le; lia |].
  apply atan2_nonneg; eapply sqrt_nonneg; eassumption.
Qed.

Lemma beregn_linje_lengde_nonneg (g : geom) (t : F) :
  beregn_linje_lengde g = Ok t -> of_int 0 <= t.
Proof.
  unfold beregn_linje_lengde.
  apply for_each_inv with (P := fun total => of_int 0 <= total);
    [| apply le_refl].
  intros total i total' Htotal H.
  bind_inv H. destruct v as [lon1 lat1].
  bind_inv H. destruct v as [lon2 lat2].
  bind_inv H. injection H as <-.
  eapply le_trans; [exact Htotal |].
  apply add_nonneg_r. eapply haversine_nonneg; eassumption.
Qed.

End Lengde.

(** ** Segmenter: [segmenter_løype] *)

Section Segmenter.

Context {F : Type} {num : Num F} {math : Math F} {shapely : Shapely F}.

Local Open Scope num_scope.

Lemma segmenter_loop (g : geom) (antall : Z) (xs : list Z)
    (acc : list geom) :
  antall <> 0%Z ->
  for_each xs acc (fun segmenter i =>
    start_frac <- int_truediv i antall ;;
    end_frac <- int_truediv (i + 1) antall ;;
    match substring g start_frac end_frac with
    | Ok segment => Ok (segmenter ++ [segment])
    | Raise _ => Ok segmenter
    end)
  = Ok (acc ++ flat_map (fun i => match snitt g antall i with
                                  | Ok s => [s]
                                  | Raise _ => []
                                  end) xs).
Proof.
  intro Hn. revert acc.
  induction xs as [| i xs IH]; intro acc; cbn [for_each flat_map].
  - rewrite app_nil_r. reflexivity.
  - unfold int_truediv at 1 2.
    destruct (antall =? 0)%Z eqn:E; [apply Z.eqb_eq in E; contradiction |].
    cbn [bind]. fold (snitt g antall i).
    destruct (snitt g antall i) as [s | e]; cbn [bind].
    + rewrite IH, <- app_assoc. reflexivity.
    + rewrite IH. reflexivity.
Qed.

Lemma alle_snitt_In (g : geom) (antall i : Z) (s : geom) :
  (0 <= i < antall)%Z -> snitt g antall i = Ok s ->
  In s (alle_snitt g antall).
Proof.
  intros Hi Hs. unfold alle_snitt. apply in_flat_map.
  exists i. split; [apply In_range; exact Hi |].
  rewrite Hs. left. reflexivity.
Qed.

Context {num_laws : NumLaws F}.

Lemma segmenter_løype_alle_snitt (g : geom) (segment_lengde total : F)
    (k : Z) :
  beregn_linje_lengde g = Ok total ->
  of_int 0 < segment_lengde ->
  int (total / segment_lengde) = Ok k ->
  segmenter_løype g segment_lengde = Ok (alle_snitt g (Z.max 1 k)).
Proof.
  intros Htotal Hpos Hk. unfold segmenter_løype.
  rewrite Htotal. cbn [bind]. unfold truediv.
  rewrite (lt_nonzero Hpos). cbn [bind]. rewrite Hk. cbn [bind].
  rewrite segmenter_loop by lia. reflexivity.
Qed.

End Segmenter.

(** ** DiscoveryMatcher: [sjekk_segment_besøkt] and the matching loop *)

Section Matcher.

Context {F : Type} {num : Num F} {math : Math F} {shapely : Shapely F}.
Context {Props : Type}.

Local Open Scope num_scope.

Lemma noen_innenfor_iff (poly : polygon) (punkter : list (F * F)) :
  noen_innenfor poly punkter = true <->
  exists p, In p punkter /\ contains poly p = true.
Proof.
  induction punkter as [| [lon lat] rest IH]; cbn [noen_innenfor].
  - split; [discriminate | intros (p & [] & _)].
  - destruct (contains poly (lon, lat)) eqn:E.
    + split; [| reflexivity]. intros _. exists (lon, lat). split; [left |]; auto.
    + rewrite IH. split.
      * intros (p & Hin & Hp). exists p. split; [right |]; assumption.
      * intros (p & [<- | Hin] & Hp); [congruence |]. exists p. auto.
Qed.

Lemma sjekk_segment_besøkt_iff (segment : geom) (punkter : list (F * F))
    (buffer_meter : F) :
  sjekk_segment_besøkt segment punkter buffer_meter = true <->
  exists p, In p punkter /\
    contains (buffer segment (buffer_meter / of_int 111000)) p = true.
Proof. unfold sjekk_segment_besøkt. apply noen_innenfor_iff. Qed.

Lemma sjekk_segment_besøkt_app (segment : geom) (punkter ekstra : list (F * F))
    (buffer_meter : F) :
  sjekk_segment_besøkt segment punkter buffer_meter = true ->
  sjekk_segment_besøkt segment (punkter ++ ekstra) buffer_meter = true.
Proof.
  rewrite !sjekk_segment_besøkt_iff. intros (p & Hin & Hp).
  exists p. split; [apply in_or_app; left |]; assumption.
Qed.

(** A property of the accumulators that every segment iteration keeps
    holds of the state the two loops end in. *)
Lemma segmenter_og_match_inv (P : tilstand F Props -> Prop)
    (punkter : list (F * F)) :
  P start_tilstand ->
  (forall props st segment st',
      P st -> behandle_segment punkter props st segment = Ok st' -> P st') ->
  forall features st,
    segmenter_og_match features punkter = Ok st -> P st.
Proof.
  intros H0 Hstep features st. unfold segmenter_og_match.
  apply for_each_inv with (P := P); [| exact H0].
  intros st1 f st2 HP H. unfold behandle_feature in H.
  do 2 bind_inv H. revert H.
  apply for_each_inv with (P := P); [| exact HP].
  intros st3 segment st4. apply Hstep.
Qed.

(** What a run of [prosesser_løyper] returns, without what it prints. *)
Lemma prosesser_løyper_verdi (fs : filer F Props)
    (geojson_file gpx_file : string) :
  verdi (prosesser_løyper fs geojson_file gpx_file) =
  (features <- les_geojson fs geojson_file ;;
   gpx <- les_gpx_fil fs gpx_file ;;
   st <- segmenter_og_match features (gpx_koordinater gpx) ;;
   Ok (svar st (gpx_koordinater gpx) (discovery st))).
Proof.
  unfold prosesser_løyper, les_gpx, verdi, run, print, io_bind.
  destruct (les_geojson fs geojson_file) as [features | e];
    cbn; [| reflexivity].
  destruct (les_gpx_fil fs gpx_file) as [gpx | e]; cbn; [| reflexivity].
  destruct (segmenter_og_match features (gpx_koordinater gpx));
    reflexivity.
Qed.

End Matcher.

(** ** The accumulators of the matching loop *)

Section Akkumulering.

Context {F : Type} {num : Num F} {math : Math F} {shapely : Shapely F}.
Context {Props : Type}.

Local Open Scope num_scope.

(** Two loops over the same list that keep a relation between their
    states. *)
Lemma for_each_rel {A B : Type} (R : B -> B -> Prop) (xs : list A)
    (body1 body2 : B -> A -> res B) :
  (forall st1 st2 x st1',
      R st1 st2 -> body1 st1 x = Ok st1' ->
      exists st2', body2 st2 x = Ok st2' /\ R st1' st2') ->
  forall st1 st2 st1',
    R st1 st2 -> for_each xs st1 body1 = Ok st1' ->
    exists st2', for_each xs st2 body2 = Ok st2' /\ R st1' st2'.
Proof.
  intro Hstep. induction xs as [| x xs IH]; cbn; intros st1 st2 st1' HR H.
  - injection H as <-. eauto.
  - bind_inv H. destruct (Hstep _ _ _ _ HR E) as (st2' & E2 & HR').
    rewrite E2. cbn [bind]. eauto.
Qed.

Context {num_laws : NumLaws F} {math_laws : MathLaws F}.

Lemma behandle_segment_gyldig (punkter : list (F * F)) (props : Props)
    (st st' : tilstand F Props) (segment : geom) :
  gyldig st -> behandle_segment punkter props st segment = Ok st' ->
  gyldig st'.
Proof.
  intros [H0 Hle] H. unfold behandle_segment in H.
  bind_inv H. injection H as <-.
  pose proof (beregn_linje_lengde_nonneg _ E) as Hv.
  unfold gyldig. cbn [besøkt_lengde_meter total_lengde_meter].
  destruct (sjekk_segment_besøkt segment punkter (of_int 50)).
  - split.
    + eapply le_trans; [exact H0 | apply add_nonneg_r; exact Hv].
    + apply add_le_mono. exact Hle.
  - split; [exact H0 |].
    eapply le_trans; [exact Hle | apply add_nonneg_r; exact Hv].
Qed.

Lemma start_tilstand_gyldig : gyldig (@start_tilstand F num shapely Props).
Proof. split; apply le_refl. Qed.

Lemma segmenter_og_match_gyldig (features : list (feature F Props))
    (punkter : list (F * F)) (st : tilstand F Props) :
  segmenter_og_match features punkter = Ok st -> gyldig st.
Proof.
  apply segmenter_og_match_inv with (P := gyldig).
  - apply start_tilstand_gyldig.
  - intros props st1 segment st2. apply behandle_segment_gyldig.
Qed.

Lemma discovery_grenser (st : tilstand F Props) :
  gyldig st ->
  of_int 0 <= discovery st /\ discovery st <= of_int 100.
Proof.
  intros [H0 Hle]. unfold discovery.
  destruct (of_int 0 <? total_lengde_meter st) eqn:Hpos.
  - split.
    + apply mul_nonneg; [| apply of_int_le; lia].
      apply div_nonneg; assumption.
    + eapply le_trans; [| apply mul_one_hundred].
      apply mul_le_mono; [| apply of_int_le; lia].
      eapply le_trans; [apply div_le_mono; eassumption |].
      apply div_self_le. exact Hpos.
  - split; [apply le_refl | apply of_int_le; lia].
Qed.

Lemma behandle_segment_utvidet (punkter ekstra : list (F * F))
    (props : Props) (st1 st2 st1' : tilstand F Props) (segment : geom) :
  utvidet st1 st2 ->
  behandle_segment punkter props st1 segment = Ok st1' ->
  exists st2',
    behandle_segment (punkter ++ ekstra) props st2 segment = Ok st2' /\
    utvidet st1' st2'.
Proof.
  intros (Ht & Hb & Hs) H. unfold behandle_segment in *.
  bind_inv H. injection H as <-. rewrite E. cbn [bind].
  pose proof (beregn_linje_lengde_nonneg _ E) as Hv.
  eexists. split; [reflexivity |].
  unfold utvidet.
  cbn [total_lengde_meter besøkt_lengde_meter alle_segmenter].
  split; [rewrite Ht; reflexivity |].
  pose proof (@sjekk_segment_besøkt_app F num shapely segment punkter ekstra
                (of_int 50)) as Happ.
  split.
  - destruct (sjekk_segment_besøkt segment punkter (of_int 50)).
    + rewrite (Happ eq_refl). apply add_le_mono. exact Hb.
    + destruct (sjekk_segment_besøkt segment (punkter ++ ekstra)
                  (of_int 50)); [| exact Hb].
      eapply le_trans; [exact Hb | apply add_nonneg_r; exact Hv].
  - apply Forall2_app; [exact Hs |].
    constructor; [| constructor].
    unfold minst_like_besøkt. cbn. auto.
Qed.

Lemma segmenter_og_match_utvidet (features : list (feature F Props))
    (punkter ekstra : list (F * F)) (st : tilstand F Props) :
  segmenter_og_match features punkter = Ok st ->
  exists st',
    segmenter_og_match features (punkter ++ ekstra) = Ok st' /\
    utvidet st st'.
Proof.
  unfold segmenter_og_match.
  apply for_each_rel with (R := utvidet).
  - intros st1 st2 f st1' HR H. unfold behandle_feature in *.
    do 2 bind_inv H. rewrite E. cbn [bind]. rewrite E0. cbn [bind].
    revert H. apply for_each_rel with (R := utvidet); [| exact HR].
    intros st3 st4 segment st3'. apply behandle_segment_utvidet.
  - split; [reflexivity |]. split; [apply le_refl | constructor].
Qed.

Lemma discovery_utvidet (st1 st2 : tilstand F Props) :
  utvidet st1 st2 -> discovery st1 <= discovery st2.
Proof.
  intros (Ht & Hb & _). unfold discovery. rewrite Ht.
  destruct (of_int 0 <? total_lengde_meter st1) eqn:Hpos;
    [| apply le_refl].
  apply mul_le_mono; [| apply of_int_le; lia].
  apply div_le_mono; assumption.
Qed.

End Akkumulering.

(** ** The claims *)

(** The IEEE model reproduces CPython: the two positions 2^-10 degrees of
    latitude apart are 108.5887955513269 m from each other. *)
Example haversine_ieee :
  @haversine float IEEE.num_glibc IEEE.math_glibc
    10%float 61%float 10%float 61.0009765625%float
  = Ok 0x1.b25aed3893eadp+6%float.
Proof. vm_compute. reflexivity. Qed.

(** C1: [sjekk_segment_besøkt segment track buffer_meter] is true exactly
    when some position of the track is contained in the buffer polygon of
    radius [buffer_meter / 111000] around the segment; it is false for the
    empty track; and a run of [prosesser_løyper] whose GPX file holds no
    point classifies every segment as not visited. *)
Theorem C1_visited_iff_point_in_buffer
    {F : Type} {num : Num F} {math : Math F} {shapely : Shapely F}
    (segment : geom) (track : list (F * F)) (buffer_meter : F) :
  (sjekk_segment_besøkt segment track buffer_meter = true <->
   exists p, In p track /\
     contains (buffer segment (buffer_meter / of_int 111000)%num) p = true)
  /\ sjekk_segment_besøkt segment [] buffer_meter = false
  /\ forall (Props : Type) (fs : filer F Props)
       (geojson_file gpx_file : string) (gpx : gpx_doc F)
       (r : resultat F Props),
       les_gpx_fil fs gpx_file = Ok gpx ->
       gpx_koordinater gpx = [] ->
       verdi (prosesser_løyper fs geojson_file gpx_file) = Ok r ->
       Forall (fun s => seg_besøkt s = false) (segmenter r).
Proof.
  split; [apply sjekk_segment_besøkt_iff |].
  split; [reflexivity |].
  intros Props fs geojson_file gpx_file gpx r Hgpx Htom Hr.
  rewrite prosesser_løyper_verdi, Hgpx in Hr.
  bind_inv Hr. cbn [bind] in Hr. bind_inv Hr. injection Hr as <-.
  cbn [segmenter svar]. rewrite Htom in E0. revert E0.
  apply segmenter_og_match_inv
    with (P := fun st => Forall (fun s => seg_besøkt s = false)
                                (alle_segmenter st)).
  - constructor.
  - intros props st seg st' HP H. unfold behandle_segment in H.
    bind_inv H. injection H as <-. cbn [alle_segmenter].
    apply Forall_app. split; [exact HP |].
    constructor; [reflexivity | constructor].
Qed.

(** The empty GPX file of the example disk: four segments, none visited. *)
Lemma C1_witness :
  exists r : resultat Q string,
    verdi (@prosesser_løyper Q Exact.num Exact.math Eksempel.planar_Q _
             Eksempel.disk "loyper.geojson" "tomt.gpx") = Ok r
    /\ List.length (segmenter r) = 4%nat
    /\ Forall (fun s => seg_besøkt s = false) (segmenter r).
Proof.
  kjør_ut (verdi (@prosesser_løyper Q Exact.num Exact.math
             Eksempel.planar_Q _ Eksempel.disk "loyper.geojson" "tomt.gpx")).
  split; [beregnet |].
  split; [reflexivity |].
  refine (proj2 (proj2 (@C1_visited_iff_point_in_buffer Q Exact.num
            Exact.math Eksempel.planar_Q [] [] 0%Q))
            string Eksempel.disk "loyper.geojson"%string "tomt.gpx"%string
            [] _ _ _ _).
  - reflexivity.
  - reflexivity.
  - beregnet.
Defined.












(** ** Degenerate trails and failing slices *)

Section Degenerert.

Context {F : Type} {num : Num F} {math : Math F} {shapely : Shapely F}.
Context {Props : Type}.

Local Open Scope num_scope.

Lemma alle_snitt_svikter (g : geom) (antall : Z) :
  (forall a b : F, exists e, substring g a b = Raise e) ->
  alle_snitt g antall = [].
Proof.
  intro Hs. unfold alle_snitt.
  induction (range antall) as [| i xs IH]; [reflexivity |].
  cbn [flat_map]. unfold snitt at 1.
  destruct (Hs (of_int i / of_int antall) (of_int (i + 1) / of_int antall))
    as [e ->].
  exact IH.
Qed.

Lemma segmenter_og_match_app (pre post : list (feature F Props))
    (punkter : list (F * F)) :
  segmenter_og_match (pre ++ post) punkter =
  (st <- for_each pre start_tilstand (behandle_feature punkter) ;;
   for_each post st (behandle_feature punkter)).
Proof. unfold segmenter_og_match. apply for_each_app. Qed.

End Degenerert.







(** C9 (as amended): a run prints: its first four lines are printed
    whatever the files hold; and what it prints and returns is determined
    by the contents of its two input files, so that runs on the same file
    contents are equal. *)
Theorem C9_prints_and_depends_on_its_files_only
    {F : Type} {num : Num F} {math : Math F} {shapely : Shapely F}
    {Props : Type}
    (fs fs' : filer F Props) (geojson_file gpx_file : string) :
  les_geojson fs' geojson_file = les_geojson fs geojson_file ->
  les_gpx_fil fs' gpx_file = les_gpx_fil fs gpx_file ->
  prosesser_løyper fs' geojson_file gpx_file =
    prosesser_løyper fs geojson_file gpx_file
  /\ exists rest : list (melding F),
       utskrift (prosesser_løyper fs geojson_file gpx_file) =
       MLinje :: MProsesserer :: MLinje
         :: MLeserLøyper geojson_file :: rest.
Proof.
  intros Hgeo Hgpx. split.
  - unfold prosesser_løyper, les_gpx. rewrite Hgeo, Hgpx. reflexivity.
  - unfold prosesser_løyper, les_gpx, utskrift, run, print, io_bind.
    destruct (les_geojson fs geojson_file) as [features | e];
      cbn; [| eauto].
    destruct (les_gpx_fil fs gpx_file) as [gpx | e]; cbn; [| eauto].
    destruct (segmenter_og_match features (gpx_koordinater gpx));
      cbn; eauto.
Qed.

(** Adding an unrelated file to the disk changes nothing. *)
Lemma C9_witness :
  @prosesser_løyper Q Exact.num Exact.math Eksempel.planar_Q _
    Eksempel.disk' "loyper.geojson" "start.gpx"
  = @prosesser_løyper Q Exact.num Exact.math Eksempel.planar_Q _
      Eksempel.disk "loyper.geojson" "start.gpx".
Proof.
  exact (proj1 (@C9_prints_and_depends_on_its_files_only Q Exact.num
           Exact.math Eksempel.planar_Q string Eksempel.disk Eksempel.disk'
           "loyper.geojson"%string "start.gpx"%string eq_refl eq_refl)).
Defined.

(** C9, the claim as stated fails: the IEEE run of the 108.6 m trail
    writes thirteen lines to standard output. *)
Lemma C9_counterexample :
  utskrift (@prosesser_løyper float IEEE.num_glibc IEEE.math_glibc
              Eksempel.planar_f _ Eksempel.disk_f "kort.geojson" "start.gpx")
  = [ MLinje; MProsesserer; MLinje;
      MLeserLøyper "kort.geojson"; MLastet 1;
      MLeserGpx "start.gpx"; MHentet 1; MTom;
      MSegmenterer; MOpprettet 1;
      MTotalLengde 0x1.bcc79ad9adfedp-4%float;
      MBesøktLengde 0x1.bcc79ad9adfedp-4%float;
      MDiscovery 100%float ]
  /\ utskrift (@prosesser_løyper float IEEE.num_glibc IEEE.math_glibc
              Eksempel.planar_f _ Eksempel.disk_f "kort.geojson" "start.gpx")
     <> [].
Proof.
  assert (H : utskrift (@prosesser_løyper float IEEE.num_glibc
                IEEE.math_glibc Eksempel.planar_f _ Eksempel.disk_f
                "kort.geojson" "start.gpx")
              = [ MLinje; MProsesserer; MLinje;
                  MLeserLøyper "kort.geojson"; MLastet 1;
                  MLeserGpx "start.gpx"; MHentet 1; MTom;
                  MSegmenterer; MOpprettet 1;
                  MTotalLengde 0x1.bcc79ad9adfedp-4%float;
                  MBesøktLengde 0x1.bcc79ad9adfedp-4%float;
                  MDiscovery 100%float ]) by beregnet.
  split; [exact H | rewrite H; discriminate].
Qed.

(** C4: the code does not clamp.  For the positions (lon 0, lat 8) and
    (lon 180, lat -8) the term [a] is computed as 1 + 2^-52, [1 - a] is
    negative, [math.sqrt] raises, and the error leaves [haversine],
    [beregn_linje_lengde], [segmenter_løype] and the matching loop. *)
Theorem C4_haversine_domain_error :
  let num := IEEE.num_glibc in
  let math := IEEE.math_glibc in
  exists s1 p1 c1 c2 s2 p2 : float,
    math_sin (math_radians (-8 - 8) / 2)%float = Ok s1
    /\ pow s1 2 = Ok p1
    /\ math_cos (math_radians 8%float) = Ok c1
    /\ math_cos (math_radians (-8)%float) = Ok c2
    /\ math_sin (math_radians (180 - 0) / 2)%float = Ok s2
    /\ pow s2 2 = Ok p2
    /\ (p1 + c1 * c2 * p2)%float = 0x1.0000000000001p+0%float
    /\ (1 - (p1 + c1 * c2 * p2))%float = (-0x1p-52)%float
    /\ math_sqrt (1 - (p1 + c1 * c2 * p2))%float = Raise ValueError
    /\ haversine 0%float 8%float 180%float (-8)%float = Raise ValueError
    /\ @beregn_linje_lengde float num math Eksempel.planar_f
         Eksempel.antipoder = Raise ValueError
    /\ @segmenter_løype float num math Eksempel.planar_f
         Eksempel.antipoder 100%float = Raise ValueError
    /\ @segmenter_og_match float num math Eksempel.planar_f _
         [Eksempel.løype_antipoder] [] = Raise ValueError.
Proof.
  cbv zeta.
  exists (-0x1.1d06c968d9e19p-3)%float, 0x1.3d581ca184804p-6%float,
    0x1.fb046a930947ap-1%float, 0x1.fb046a930947ap-1%float,
    1%float, 1%float.
  repeat (split; [beregnet |]). beregnet.
Qed.

(** * Further properties of the module *)

(** ** [sjekk_segment_besøkt] *)

Section MerOmSjekk.

Context {F : Type} {num : Num F} {math : Math F} {shapely : Shapely F}.

Lemma noen_innenfor_app (poly : polygon) (a b : list (F * F)) :
  noen_innenfor poly (a ++ b) =
  noen_innenfor poly a || noen_innenfor poly b.
Proof.
  induction a as [| [lon lat] a IH]; cbn [noen_innenfor app];
    [reflexivity |].
  destruct (contains poly (lon, lat)); [reflexivity | exact IH].
Qed.

End MerOmSjekk.

(** X2: the visited test of a concatenated track is the disjunction of the
    tests of its parts, so the test does not depend on the order of the
    track's positions. *)
Theorem X2_visited_of_concatenation
    {F : Type} {num : Num F} {math : Math F} {shapely : Shapely F}
    (segment : geom) (a b : list (F * F)) (buffer_meter : F) :
  sjekk_segment_besøkt segment (a ++ b) buffer_meter =
    sjekk_segment_besøkt segment a buffer_meter
    || sjekk_segment_besøkt segment b buffer_meter
  /\ (Permutation a b ->
      sjekk_segment_besøkt segment a buffer_meter =
      sjekk_segment_besøkt segment b buffer_meter).
Proof.
  split; [apply noen_innenfor_app |].
  intro Hp.
  destruct (sjekk_segment_besøkt segment b buffer_meter) eqn:Hb.
  - apply sjekk_segment_besøkt_iff in Hb. destruct Hb as (p & Hin & Hc).
    apply sjekk_segment_besøkt_iff. exists p. split; [| exact Hc].
    eapply Permutation_in; [symmetry; exact Hp | exact Hin].
  - destruct (sjekk_segment_besøkt segment a buffer_meter) eqn:Ha;
      [| reflexivity].
    apply sjekk_segment_besøkt_iff in Ha. destruct Ha as (p & Hin & Hc).
    rewrite <- Hb. symmetry. apply sjekk_segment_besøkt_iff.
    exists p. split; [| exact Hc].
    eapply Permutation_in; [exact Hp | exact Hin].
Qed.

Lemma X2_witness :
  @sjekk_segment_besøkt Q Exact.num Eksempel.planar_Q
    [(10, 61); (10, 61001 # 1000)]%Q [(11, 61); (10, 61)]%Q 50%Q
  = @sjekk_segment_besøkt Q Exact.num Eksempel.planar_Q
      [(10, 61); (10, 61001 # 1000)]%Q [(10, 61); (11, 61)]%Q 50%Q.
Proof.
  apply (@X2_visited_of_concatenation Q Exact.num Exact.math
           Eksempel.planar_Q).
  apply perm_swap.
Defined.

(** ** [segmenter_løype] *)

Section MerOmSegmenter.

Context {F : Type} {num : Num F} {math : Math F} {shapely : Shapely F}.

Local Open Scope num_scope.

Lemma alle_snitt_length (g : geom) (antall : Z) :
  (List.length (alle_snitt g antall) <= Z.to_nat antall)%nat
  /\ (List.length (alle_snitt g antall) = Z.to_nat antall <->
      forall i, (0 <= i < antall)%Z -> exists s, snitt g antall i = Ok s).
Proof.
  unfold alle_snitt.
  assert (Hlen : List.length (range antall) = Z.to_nat antall).
  { unfold range. rewrite length_map, length_seq. reflexivity. }
  rewrite <- Hlen.
  assert (Hall : (forall i, (0 <= i < antall)%Z ->
                    exists s, snitt g antall i = Ok s) <->
                 Forall (fun i => exists s, snitt g antall i = Ok s)
                        (range antall)).
  { rewrite Forall_forall. split; intros H i Hi; apply H;
      apply In_range; exact Hi. }
  rewrite Hall. clear Hlen Hall.
  induction (range antall) as [| i xs [IHle IHeq]]; cbn [flat_map List.length].
  - split; [lia |]. split; [constructor | reflexivity].
  - rewrite length_app.
    destruct (snitt g antall i) as [s | e] eqn:E; cbn [List.length app].
    + split; [lia |]. split.
      * intro H. constructor; [eauto |]. apply IHeq. lia.
      * intro H. inversion H; subst.
        assert (Hxs := proj2 IHeq H3). lia.
    + split; [lia |]. split; [lia |].
      intro H. inversion H as [| ? ? [s Hs] ?]; subst. congruence.
Qed.

End MerOmSegmenter.

(** X3: whenever [segmenter_løype] returns, the length was computed, the
    target is not zero, and with [k = int (total / target)] the result is
    the list of the successful slices among [max 1 k]: never more than
    [max 1 k] segments, and exactly that many when no slice fails. *)
Theorem X3_segment_count
    {F : Type} {num : Num F} {math : Math F} {shapely : Shapely F}
    (linestring : geom) (target : F) (segs : list geom) :
  segmenter_løype linestring target = Ok segs ->
  exists (total : F) (k : Z),
    beregn_linje_lengde linestring = Ok total
    /\ is_zero target = false
    /\ int (total / target)%num = Ok k
    /\ segs = alle_snitt linestring (Z.max 1 k)
    /\ (1 <= Z.max 1 k)%Z
    /\ (List.length segs <= Z.to_nat (Z.max 1 k))%nat
    /\ (List.length segs = Z.to_nat (Z.max 1 k) <->
        forall i, (0 <= i < Z.max 1 k)%Z ->
          exists s, snitt linestring (Z.max 1 k) i = Ok s).
Proof.
  intro H. unfold segmenter_løype in H.
  bind_inv H. bind_inv H. bind_inv H.
  unfold truediv in E0.
  destruct (is_zero target) eqn:Hz; [discriminate |].
  injection E0 as <-.
  assert (Hcount : Z.max 1 v1 <> 0%Z) by lia.
  rewrite (segmenter_loop linestring _ [] Hcount) in H.
  injection H as <-. cbn [app].
  exists v, v1. repeat (split; [solve [assumption | reflexivity | lia] |]).
  apply alle_snitt_length.
Qed.

Lemma X3_witness :
  exists (segs : list (list (Q * Q))) (total : Q) (k : Z),
    @segmenter_løype Q Exact.num Exact.math Eksempel.planar_Q
      [(10, 61); (10, 61003 # 1000)]%Q 100%Q = Ok segs
    /\ @beregn_linje_lengde Q Exact.num Exact.math Eksempel.planar_Q
         [(10, 61); (10, 61003 # 1000)]%Q = Ok total
    /\ segs = @alle_snitt Q Exact.num Eksempel.planar_Q
                [(10, 61); (10, 61003 # 1000)]%Q (Z.max 1 k)
    /\ (List.length segs <= Z.to_nat (Z.max 1 k))%nat.
Proof.
  kjør_ut (@segmenter_løype Q Exact.num Exact.math Eksempel.planar_Q
             [(10, 61); (10, 61003 # 1000)]%Q 100%Q).
  match goal with
  | |- exists total k, ?run = Ok ?segs /\ _ =>
      assert (H : run = Ok segs) by beregnet;
      destruct (@X3_segment_count Q Exact.num Exact.math Eksempel.planar_Q
                  _ _ _ H)
        as (total & k & Ht & _ & _ & Hs & _ & Hl & _)
  end.
  exists total, k. repeat split; assumption.
Defined.

(** X4: an exception leaves [segmenter_løype] only from the length
    computation, from the division by a zero target, or from [int]; an
    exception of [substring] never does. *)
Theorem X4_segment_errors
    {F : Type} {num : Num F} {math : Math F} {shapely : Shapely F}
    (linestring : geom) (target : F) (e : exn) :
  segmenter_løype linestring target = Raise e <->
  beregn_linje_lengde linestring = Raise e
  \/ (exists total : F,
        beregn_linje_lengde linestring = Ok total /\
        is_zero target = true /\ e = ZeroDivisionError)
  \/ (exists total : F,
        beregn_linje_lengde linestring = Ok total /\
        is_zero target = false /\
        int (total / target)%num = Raise e).
Proof.
  unfold segmenter_løype, truediv.
  destruct (beregn_linje_lengde linestring) as [total | e0]; cbn [bind].
  - destruct (is_zero target) eqn:Hz; cbn [bind].
    + split.
      * intros [= <-]. right. left. eauto.
      * intros [H | [(t & [= <-] & _ & ->) | (t & _ & H & _)]];
          [discriminate | reflexivity | discriminate].
    + destruct (int (total / target)%num) as [k | e1] eqn:Hk; cbn [bind].
      * assert (Hcount : Z.max 1 k <> 0%Z) by lia.
        rewrite (segmenter_loop linestring _ [] Hcount).
        split; [discriminate |].
        intros [H | [(t & _ & H & _) | (t & [= <-] & _ & H)]];
          [discriminate | discriminate | congruence].
      * split.
        -- intros [= <-]. right. right. eauto.
        -- intros [H | [(t & _ & H & _) | (t & [= <-] & _ & H)]];
             [discriminate | discriminate | congruence].
  - split.
    + intros [= <-]. left. reflexivity.
    + intros [[= <-] | [(t & H & _) | (t & H & _)]];
        [reflexivity | discriminate | discriminate].
Qed.

Lemma X4_witness :
  @segmenter_løype Q Exact.num Exact.math Eksempel.planar_Q
    [(10, 61); (10, 61003 # 1000)]%Q 0%Q = Raise ZeroDivisionError.
Proof.
  apply (@X4_segment_errors Q Exact.num Exact.math Eksempel.planar_Q).
  right. left.
  kjør_ut (@beregn_linje_lengde Q Exact.num Exact.math Eksempel.planar_Q
             [(10, 61); (10, 61003 # 1000)]%Q).
  split; [beregnet |]. split; reflexivity.
Defined.

(** ** The matching loop *)

Section MerOmMatch.

Context {F : Type} {num : Num F} {math : Math F} {shapely : Shapely F}.
Context {Props : Type}.

Local Open Scope num_scope.

Lemma behandle_segmenter_nøkler (punkter : list (F * F)) (props : Props)
    (segs : list geom) (st st' : tilstand F Props) :
  for_each segs st (behandle_segment punkter props) = Ok st' ->
  map nøkkel (alle_segmenter st') =
  map nøkkel (alle_segmenter st) ++ map (fun s => (s, props)) segs.
Proof.
  revert st. induction segs as [| s segs IH]; cbn [for_each]; intros st H.
  - injection H as <-. rewrite app_nil_r. reflexivity.
  - bind_inv H. rewrite (IH _ H). unfold behandle_segment in E.
    bind_inv E. injection E as <-. cbn [alle_segmenter map].
    rewrite map_app, <- app_assoc. reflexivity.
Qed.

Lemma behandle_features_nøkler (punkter : list (F * F))
    (features : list (feature F Props)) (st st' : tilstand F Props) :
  for_each features st (behandle_feature punkter) = Ok st' ->
  exists per : list (list (geom * Props)),
    Forall2 (fun f l => løype_segmenter f = Ok l) features per /\
    map nøkkel (alle_segmenter st') =
    map nøkkel (alle_segmenter st) ++ List.concat per.
Proof.
  revert st. induction features as [| f features IH]; cbn [for_each];
    intros st H.
  - injection H as <-. exists []. split; [constructor |].
    rewrite app_nil_r. reflexivity.
  - bind_inv H. destruct (IH _ H) as (per & Hper & Hmap).
    unfold behandle_feature in E. do 2 bind_inv E.
    exists (map (fun s => (s, properties f)) v1 :: per). split.
    + constructor; [| exact Hper]. unfold løype_segmenter.
      rewrite E0. cbn [bind]. rewrite E1. reflexivity.
    + rewrite Hmap, (behandle_segmenter_nøkler _ _ _ _ E).
      cbn [List.concat]. rewrite <- app_assoc. reflexivity.
Qed.

Lemma sum_lengde_snoc (segs : list (segment_post F Props))
    (s : segment_post F Props) :
  sum_lengde (segs ++ [s]) = sum_lengde segs + seg_lengde s.
Proof.
  unfold sum_lengde. rewrite map_app, fold_left_app. reflexivity.
Qed.

Lemma segmenter_og_match_regnskap (features : list (feature F Props))
    (punkter : list (F * F)) (st : tilstand F Props) :
  segmenter_og_match features punkter = Ok st -> regnskap punkter st.
Proof.
  apply segmenter_og_match_inv with (P := regnskap punkter).
  - split; [constructor | split; reflexivity].
  - intros props st1 segment st2 (Hall & Ht & Hb) H.
    unfold behandle_segment in H. bind_inv H. injection H as <-.
    unfold regnskap. cbn [alle_segmenter total_lengde_meter
                           besøkt_lengde_meter].
    split; [| split].
    + apply Forall_app. split; [exact Hall |].
      constructor; [| constructor]. cbn. split; [exact E | reflexivity].
    + rewrite sum_lengde_snoc, Ht. reflexivity.
    + rewrite filter_app. cbn [filter seg_besøkt].
      destruct (sjekk_segment_besøkt segment punkter (of_int 50)).
      * rewrite sum_lengde_snoc, Hb. reflexivity.
      * rewrite app_nil_r. exact Hb.
Qed.

End MerOmMatch.

(** X5: the segments of the result are the slices of the trails, trail by
    trail in input order and slice by slice in the order [segmenter_løype]
    returned them, each carrying the properties of its trail. *)
Theorem X5_segments_follow_trails
    {F : Type} {num : Num F} {math : Math F} {shapely : Shapely F}
    {Props : Type}
    (features : list (feature F Props)) (punkter : list (F * F))
    (st : tilstand F Props) :
  segmenter_og_match features punkter = Ok st ->
  exists per : list (list (geom * Props)),
    Forall2 (fun f l => løype_segmenter f = Ok l) features per /\
    map (fun s => (seg_geometry s, seg_properties s)) (alle_segmenter st)
      = List.concat per.
Proof.
  intro H. unfold segmenter_og_match in H.
  destruct (behandle_features_nøkler _ _ _ H) as (per & Hper & Hmap).
  exists per. split; [exact Hper | exact Hmap].
Qed.

Lemma X5_witness :
  exists (st : @tilstand Q Eksempel.planar_Q string)
         (per : list (list (list (Q * Q) * string))),
    @segmenter_og_match Q Exact.num Exact.math Eksempel.planar_Q string
      [Eksempel.løype_lang; Eksempel.løype_kort] Eksempel.spor_start
      = Ok st
    /\ List.length per = 2%nat
    /\ map (fun s => (seg_geometry s, seg_properties s)) (alle_segmenter st)
       = List.concat per.
Proof.
  kjør_ut (@segmenter_og_match Q Exact.num Exact.math Eksempel.planar_Q
             string [Eksempel.løype_lang; Eksempel.løype_kort]
             Eksempel.spor_start).
  match goal with
  | |- exists per, ?run = Ok ?st /\ _ =>
      assert (H : run = Ok st) by beregnet;
      destruct (@X5_segments_follow_trails Q Exact.num Exact.math
                  Eksempel.planar_Q string _ _ _ H) as (per & Hper & Hmap)
  end.
  exists per. split; [exact H |]. split; [| exact Hmap].
  symmetry. exact (Forall2_length Hper).
Defined.

(** X6: in the dictionary a run returns, every segment records the length
    and the visited flag the module computes for its geometry (50 m
    buffer); [total_km] is the left-to-right sum of the recorded lengths
    divided by 1000, and [besøkt_km] is that sum over the visited
    segments divided by 1000. *)
Theorem X6_stats_are_sums_over_the_segments
    {F : Type} {num : Num F} {math : Math F} {shapely : Shapely F}
    {Props : Type}
    (fs : filer F Props) (geojson_file gpx_file : string)
    (r : resultat F Props) :
  verdi (prosesser_løyper fs geojson_file gpx_file) = Ok r ->
  Forall (fun s =>
            beregn_linje_lengde (seg_geometry s) = Ok (seg_lengde s) /\
            seg_besøkt s =
              sjekk_segment_besøkt (seg_geometry s) (gpx_punkter r)
                (of_int 50))
         (segmenter r)
  /\ total_km (stats r) = (sum_lengde (segmenter r) / of_int 1000)%num
  /\ besøkt_km (stats r) =
       (sum_lengde (filter (fun s => seg_besøkt s) (segmenter r))
        / of_int 1000)%num.
Proof.
  intro Hr. rewrite prosesser_løyper_verdi in Hr.
  do 3 bind_inv Hr. injection Hr as <-.
  destruct (segmenter_og_match_regnskap _ _ E1) as (Hall & Ht & Hb).
  cbn [segmenter gpx_punkter stats svar total_km besøkt_km].
  split; [exact Hall |]. rewrite Ht, Hb. split; reflexivity.
Qed.

Lemma X6_witness :
  exists r : resultat Q string,
    verdi (@prosesser_løyper Q Exact.num Exact.math Eksempel.planar_Q _
             Eksempel.disk "loyper.geojson" "start.gpx") = Ok r
    /\ total_km (stats r) =
       @div Q Exact.num
         (@sum_lengde Q Exact.num Eksempel.planar_Q string (segmenter r))
         1000%Q.
Proof.
  kjør_ut (verdi (@prosesser_løyper Q Exact.num Exact.math
             Eksempel.planar_Q _ Eksempel.disk "loyper.geojson" "start.gpx")).
  match goal with
  | |- ?run = Ok ?r /\ _ =>
      assert (H : run = Ok r) by beregnet;
      split; [exact H |];
      exact (proj1 (proj2 (@X6_stats_are_sums_over_the_segments Q Exact.num
                             Exact.math Eksempel.planar_Q string _ _ _ _ H)))
  end.
Defined.

(** X7: when every segment of a run is visited, the reported visited
    length equals the reported total, bit for bit, and the percentage is
    [total / total * 100] for a positive total; when no segment is
    visited, the visited length is [0 / 1000]. *)
Theorem X7_all_or_none_visited
    {F : Type} {num : Num F} {math : Math F} {shapely : Shapely F}
    {Props : Type}
    (fs : filer F Props) (geojson_file gpx_file : string)
    (r : resultat F Props) :
  verdi (prosesser_løyper fs geojson_file gpx_file) = Ok r ->
  exists total : F,
    total_km (stats r) = (total / of_int 1000)%num
    /\ (Forall (fun s => seg_besøkt s = true) (segmenter r) ->
        besøkt_km (stats r) = total_km (stats r) /\
        ((of_int 0 <? total)%num = true ->
         discovery_prosent (stats r) = (total / total * of_int 100)%num))
    /\ (Forall (fun s => seg_besøkt s = false) (segmenter r) ->
        besøkt_km (stats r) = (of_int 0 / of_int 1000)%num).
Proof.
  intro Hr. rewrite prosesser_løyper_verdi in Hr.
  do 3 bind_inv Hr. injection Hr as <-.
  destruct (segmenter_og_match_regnskap _ _ E1) as (_ & Ht & Hb).
  cbn [segmenter stats svar total_km besøkt_km discovery_prosent].
  exists (total_lengde_meter v1). split; [reflexivity |]. split.
  - intro Hall.
    assert (Hf : filter (fun s => seg_besøkt s) (alle_segmenter v1)
                 = alle_segmenter v1).
    { apply forallb_filter_id. apply forallb_forall.
      rewrite Forall_forall in Hall. exact Hall. }
    assert (Heq : besøkt_lengde_meter v1 = total_lengde_meter v1)
      by (rewrite Hb, Hf, Ht; reflexivity).
    split; [rewrite Heq; reflexivity |].
    intro Hpos. unfold discovery. rewrite Hpos, Heq. reflexivity.
  - intro Hnone.
    assert (Hf : filter (fun s => seg_besøkt s) (alle_segmenter v1) = []).
    { clear Ht Hb. induction Hnone as [| s l Hs _ IH]; [reflexivity |].
      cbn [filter]. rewrite Hs. exact IH. }
    rewrite Hb, Hf. reflexivity.
Qed.

Lemma X7_witness :
  exists r : resultat Q string,
    verdi (@prosesser_løyper Q Exact.num Exact.math Eksempel.planar_Q _
             Eksempel.disk "kort.geojson" "start.gpx") = Ok r
    /\ besøkt_km (stats r) = total_km (stats r).
Proof.
  kjør_ut (verdi (@prosesser_løyper Q Exact.num Exact.math
             Eksempel.planar_Q _ Eksempel.disk "kort.geojson" "start.gpx")).
  match goal with
  | |- ?run = Ok ?r /\ _ =>
      assert (H : run = Ok r) by beregnet;
      split; [exact H |];
      destruct (@X7_all_or_none_visited Q Exact.num Exact.math
                  Eksempel.planar_Q string _ _ _ _ H)
        as (total & _ & Halle & _)
  end.
  apply Halle. repeat constructor.
Defined.

(** ** [beregn_linje_lengde] *)

Section MerOmLengde.

Context {F : Type} {num : Num F} {math : Math F} {shapely : Shapely F}.

Local Open Scope num_scope.

Lemma nabopar_snoc (cs : list (F * F)) (q p : F * F) :
  nabopar ((cs ++ [q]) ++ [p]) = nabopar (cs ++ [q]) ++ [(q, p)].
Proof.
  induction cs as [| c cs IH]; [reflexivity |].
  destruct cs as [| c' cs]; [reflexivity |].
  change (((c :: c' :: cs) ++ [q]) ++ [p])
    with (c :: ((c' :: cs) ++ [q]) ++ [p]).
  change ((c :: c' :: cs) ++ [q]) with (c :: (c' :: cs) ++ [q]).
  cbn [nabopar app] in *. rewrite IH. reflexivity.
Qed.

(** The loop body of [haversine_sum]. *)
Lemma haversine_sum_Ok_iff (cs : list (F * F)) :
  (exists t, haversine_sum cs = Ok t) <->
  Forall (fun pq => exists h,
            haversine (fst (fst pq)) (snd (fst pq))
                      (fst (snd pq)) (snd (snd pq)) = Ok h)
         (nabopar cs).
Proof.
  unfold haversine_sum. generalize (of_int 0 : F) as acc.
  induction (nabopar cs) as [| pq l IH]; intro acc; cbn [for_each].
  - split; [constructor | eauto].
  - destruct (haversine (fst (fst pq)) (snd (fst pq)) (fst (snd pq))
                (snd (snd pq))) as [h | e] eqn:E; cbn [bind].
    + rewrite IH. split.
      * intro H. constructor; [eauto | exact H].
      * intro H. inversion H; assumption.
    + split.
      * intros [t Ht]. discriminate Ht.
      * intro H. inversion H as [| ? ? [h Hh] ?]; subst. congruence.
Qed.

End MerOmLengde.

(** X8: the length of a line is defined exactly when each of its
    consecutive pairs of positions has a haversine distance: one pair on
    which [haversine] raises makes the whole length raise. *)
Theorem X8_length_defined_iff_every_pair
    {F : Type} {num : Num F} {math : Math F} {shapely : Shapely F}
    (linestring : geom) :
  (exists t : F, beregn_linje_lengde linestring = Ok t) <->
  Forall (fun pq : (F * F) * (F * F) =>
            exists h : F,
              haversine (fst (fst pq)) (snd (fst pq))
                        (fst (snd pq)) (snd (snd pq)) = Ok h)
         (nabopar (coords linestring)).
Proof.
  rewrite beregn_linje_lengde_sum. apply haversine_sum_Ok_iff.
Qed.

Lemma X8_witness :
  Forall (fun pq : (Q * Q) * (Q * Q) =>
            exists h : Q,
              @haversine Q Exact.num Exact.math
                (fst (fst pq)) (snd (fst pq)) (fst (snd pq)) (snd (snd pq))
              = Ok h)
         (nabopar [(10, 61); (10, 61001 # 1000); (10, 61003 # 1000)]%Q).
Proof.
  apply (@X8_length_defined_iff_every_pair Q Exact.num Exact.math
           Eksempel.planar_Q
           [(10, 61); (10, 61001 # 1000); (10, 61003 # 1000)]%Q).
  kjør_ut (@beregn_linje_lengde Q Exact.num Exact.math Eksempel.planar_Q
             [(10, 61); (10, 61001 # 1000); (10, 61003 # 1000)]%Q).
  beregnet.
Defined.



(** ** [les_gpx] and what [prosesser_løyper] prints *)

Section MerOmUtskrift.

Context {F : Type} {num : Num F} {math : Math F} {shapely : Shapely F}.
Context {Props : Type}.

Lemma gpx_koordinater_length (gpx : gpx_doc F) :
  List.length (gpx_koordinater gpx) = antall_punkter gpx.
Proof.
  unfold gpx_koordinater, antall_punkter.
  induction gpx as [| track gpx IH]; [reflexivity |].
  cbn [flat_map map list_sum fold_right]. rewrite length_app.
  f_equal; [| exact IH].
  clear IH. induction track as [| segment track IHt]; [reflexivity |].
  cbn [flat_map map list_sum fold_right]. rewrite length_app, length_map.
  f_equal. exact IHt.
Qed.

End MerOmUtskrift.

(** X1: on a GPX file that can be read, [les_gpx] prints twice and
    returns every point of every segment of every track as
    (longitude, latitude), in document order; the count it prints is the
    number of points of the document and the length of what it returns.
    On a file that cannot be read it prints the first line only and
    raises the reader's exception. *)
Theorem X1_les_gpx_returns_every_point
    {F : Type} {Props : Type} (fs : filer F Props) (gpx_file : string) :
  (forall gpx : gpx_doc F,
      les_gpx_fil fs gpx_file = Ok gpx ->
      les_gpx fs gpx_file =
        ([MLeserGpx gpx_file; MHentet (antall_punkter gpx)],
         Ok (gpx_koordinater gpx))
      /\ List.length (gpx_koordinater gpx) = antall_punkter gpx
      /\ (forall a b : gpx_doc F,
            gpx = a ++ b ->
            gpx_koordinater gpx = gpx_koordinater a ++ gpx_koordinater b)
      /\ (forall punkter : list (gpx_point F),
            gpx = [[punkter]] ->
            gpx_koordinater gpx =
            map (fun p => (longitude p, latitude p)) punkter))
  /\ (forall e : exn,
        les_gpx_fil fs gpx_file = Raise e ->
        les_gpx fs gpx_file = ([MLeserGpx gpx_file], Raise e)).
Proof.
  split.
  - intros gpx Hgpx. split; [| split; [| split]].
    + unfold les_gpx, io_bind, print, run. rewrite Hgpx. cbn.
      rewrite gpx_koordinater_length. reflexivity.
    + apply gpx_koordinater_length.
    + intros a b ->. unfold gpx_koordinater. apply flat_map_app.
    + intros punkter ->. cbn. rewrite !app_nil_r. reflexivity.
  - intros e He. unfold les_gpx, io_bind, print, run. rewrite He.
    reflexivity.
Qed.

Lemma X1_witness :
  les_gpx Eksempel.disk "to.gpx" =
    ([MLeserGpx "to.gpx"; MHentet 2],
     Ok [(10, 61); (10, 61003 # 1000)]%Q).
Proof.
  exact (proj1 (proj1 (X1_les_gpx_returns_every_point Eksempel.disk
                         "to.gpx") _ eq_refl)).
Defined.

(** X10: a run that returns has called [print] thirteen times, and the
    numbers printed are those of the dictionary it returns: the number of trails
    read, of track points, of segments, the two lengths in km and the
    percentage. *)
Theorem X10_printed_numbers_are_the_returned_ones
    {F : Type} {num : Num F} {math : Math F} {shapely : Shapely F}
    {Props : Type}
    (fs : filer F Props) (geojson_file gpx_file : string)
    (r : resultat F Props) :
  verdi (prosesser_løyper fs geojson_file gpx_file) = Ok r ->
  exists features : list (feature F Props),
    les_geojson fs geojson_file = Ok features
    /\ utskrift (prosesser_løyper fs geojson_file gpx_file) =
       [ MLinje; MProsesserer; MLinje; MLeserLøyper geojson_file;
         MLastet (List.length features);
         MLeserGpx gpx_file; MHentet (List.length (gpx_punkter r));
         MTom; MSegmenterer;
         MOpprettet (List.length (segmenter r));
         MTotalLengde (total_km (stats r));
         MBesøktLengde (besøkt_km (stats r));
         MDiscovery (discovery_prosent (stats r)) ].
Proof.
  unfold prosesser_løyper, les_gpx, verdi, utskrift, run, print, io_bind.
  destruct (les_geojson fs geojson_file) as [features | e];
    cbn; [| discriminate].
  destruct (les_gpx_fil fs gpx_file) as [gpx | e]; cbn; [| discriminate].
  destruct (segmenter_og_match features (gpx_koordinater gpx)) as [st | e];
    cbn; [| discriminate].
  intros [= <-]. exists features. split; reflexivity.
Qed.

Lemma X10_witness :
  exists r : resultat Q string,
    verdi (@prosesser_løyper Q Exact.num Exact.math Eksempel.planar_Q _
             Eksempel.disk "loyper.geojson" "start.gpx") = Ok r
    /\ List.length
         (utskrift (@prosesser_løyper Q Exact.num Exact.math
                      Eksempel.planar_Q _ Eksempel.disk "loyper.geojson"
                      "start.gpx")) = 13%nat.
Proof.
  kjør_ut (verdi (@prosesser_løyper Q Exact.num Exact.math
             Eksempel.planar_Q _ Eksempel.disk "loyper.geojson" "start.gpx")).
  match goal with
  | |- ?run = Ok ?r /\ _ =>
      assert (H : run = Ok r) by beregnet;
      split; [exact H |];
      destruct (@X10_printed_numbers_are_the_returned_ones Q Exact.num
                  Exact.math Eksempel.planar_Q string _ _ _ _ H)
        as (features & _ & Hut)
  end.
  rewrite Hut. reflexivity.
Defined.

(** X11: a run that raises stopped printing at the step that failed:
    after four [print] calls when the trails cannot be read (the GPX file
    is then not opened), after six when the GPX file cannot be read, after
    nine when the matching raised; the lengths and the percentage are never
    printed. *)
Theorem X11_failing_run
    {F : Type} {num : Num F} {math : Math F} {shapely : Shapely F}
    {Props : Type}
    (fs : filer F Props) (geojson_file gpx_file : string) (e : exn) :
  verdi (prosesser_løyper fs geojson_file gpx_file) = Raise e ->
  (les_geojson fs geojson_file = Raise e
   /\ (forall fs' : filer F Props,
         les_geojson fs' geojson_file = Raise e ->
         prosesser_løyper fs' geojson_file gpx_file =
         ([MLinje; MProsesserer; MLinje; MLeserLøyper geojson_file],
          Raise e)))
  \/ (exists features : list (feature F Props),
        les_geojson fs geojson_file = Ok features
        /\ les_gpx_fil fs gpx_file = Raise e
        /\ utskrift (prosesser_løyper fs geojson_file gpx_file) =
           [ MLinje; MProsesserer; MLinje; MLeserLøyper geojson_file;
             MLastet (List.length features); MLeserGpx gpx_file ])
  \/ (exists (features : list (feature F Props)) (gpx : gpx_doc F),
        les_geojson fs geojson_file = Ok features
        /\ les_gpx_fil fs gpx_file = Ok gpx
        /\ segmenter_og_match features (gpx_koordinater gpx) = Raise e
        /\ utskrift (prosesser_løyper fs geojson_file gpx_file) =
           [ MLinje; MProsesserer; MLinje; MLeserLøyper geojson_file;
             MLastet (List.length features); MLeserGpx gpx_file;
             MHentet (List.length (gpx_koordinater gpx));
             MTom; MSegmenterer ]).
Proof.
  unfold prosesser_løyper, les_gpx, verdi, utskrift, run, print, io_bind.
  destruct (les_geojson fs geojson_file) as [features | e0] eqn:Hgeo; cbn.
  - destruct (les_gpx_fil fs gpx_file) as [gpx | e1] eqn:Hgpx; cbn.
    + destruct (segmenter_og_match features (gpx_koordinater gpx))
        as [st | e2] eqn:Hm; cbn; [discriminate |].
      intros [= <-]. right. right. exists features, gpx. auto.
    + intros [= <-]. right. left. exists features. auto.
  - intros [= <-]. left. split; [reflexivity |].
    intros fs' ->. reflexivity.
Qed.

Lemma X11_witness :
  verdi (@prosesser_løyper Q Exact.num Exact.math Eksempel.planar_Q _
           Eksempel.disk "loyper.geojson" "mangler.gpx")
    = Raise FileNotFoundError
  /\ (List.length
        (utskrift (@prosesser_løyper Q Exact.num Exact.math
                     Eksempel.planar_Q _ Eksempel.disk "loyper.geojson"
                     "mangler.gpx")) <= 9)%nat.
Proof.
  assert (H : verdi (@prosesser_løyper Q Exact.num Exact.math
                       Eksempel.planar_Q _ Eksempel.disk "loyper.geojson"
                       "mangler.gpx") = Raise FileNotFoundError)
    by beregnet.
  split; [exact H |].
  destruct (@X11_failing_run Q Exact.num Exact.math Eksempel.planar_Q string
              _ _ _ _ H)
    as [(H1 & H2) | [(features & _ & _ & Hut)
                    | (features & gpx & _ & _ & _ & Hut)]].
  - rewrite (H2 _ H1). cbn [utskrift fst List.length]. lia.
  - rewrite Hut. cbn [List.length]. lia.
  - rewrite Hut. cbn [List.length]. lia.
Defined.

(** ** [lag_kart] *)

Section MerOmKart.

Context {F : Type} {num : Num F} {math : Math F} {shapely : Shapely F}.
Context {python : Python F} {folium : Folium F} {Props : Type}.

Local Open Scope num_scope.

Lemma lat_lon_involutive (cs : list (F * F)) : lat_lon (lat_lon cs) = cs.
Proof.
  unfold lat_lon. rewrite map_map.
  induction cs as [| [lon lat] cs IH]; [reflexivity |].
  cbn [map]. rewrite IH. reflexivity.
Qed.

Lemma sentrum_Ok (punkter : list (F * F)) :
  exists c, sentrum punkter = Ok c.
Proof. destruct punkter; eexists; reflexivity. Qed.

Lemma tegn_segmenter (segs : list (segment_post F Props))
    (m m' : kart F) :
  for_each segs m tegn_segment = Ok m' ->
  k_location m' = k_location m /\ k_zoom_start m' = k_zoom_start m
  /\ k_tiles m' = k_tiles m /\ k_html m' = k_html m
  /\ exists linjer : list (polyline F),
       k_linjer m' = k_linjer m ++ linjer /\ Forall2 tegnet segs linjer.
Proof.
  revert m. induction segs as [| s segs IH]; cbn [for_each]; intros m H.
  - injection H as <-. repeat (split; [reflexivity |]).
    exists []. rewrite app_nil_r. split; [reflexivity | constructor].
  - bind_inv H. destruct (IH _ H) as (Hl & Hz & Ht & Hh & linjer & Hk & Hf).
    unfold tegn_segment, PolyLine in E.
    destruct (validate_locations (lat_lon (coords (seg_geometry s))));
      cbn [bind] in E; [| discriminate].
    injection E as <-. cbn in Hl, Hz, Ht, Hh, Hk.
    repeat (split; [assumption |]).
    eexists (_ :: linjer). rewrite Hk, <- app_assoc. split; [reflexivity |].
    constructor; [| exact Hf]. repeat split.
Qed.

Lemma tegn_segmenter_feil (segs : list (segment_post F Props))
    (m : kart F) (e : exn) :
  for_each segs m tegn_segment = Raise e ->
  exists s, In s segs /\
    validate_locations (lat_lon (coords (seg_geometry s))) = Raise e.
Proof.
  revert m. induction segs as [| s segs IH]; cbn [for_each]; intros m H;
    [discriminate |].
  destruct (tegn_segment m s) as [m1 | e1] eqn:E; cbn [bind] in H.
  - destruct (IH _ H) as (s' & Hin & Hs'). exists s'. split; [right |];
      assumption.
  - injection H as <-. exists s. split; [left; reflexivity |].
    unfold tegn_segment, PolyLine in E.
    destruct (validate_locations (lat_lon (coords (seg_geometry s))));
      [discriminate | cbn in E; congruence].
Qed.

Lemma antall_farge (segs : list (segment_post F Props))
    (linjer : list (polyline F)) :
  Forall2 tegnet segs linjer ->
  List.length (filter (fun s => seg_besøkt s) segs) =
    antall_linjer "green" linjer
  /\ List.length (filter (fun s => negb (seg_besøkt s)) segs) =
    antall_linjer "red" linjer.
Proof.
  unfold antall_linjer.
  induction 1 as [| s l segs linjer (_ & Hc & _) _ [IHg IHr]];
    [split; reflexivity |].
  cbn [filter]. rewrite Hc.
  destruct (seg_besøkt s); cbn; rewrite IHg, IHr; split; reflexivity.
Qed.

Lemma lag_kart_leaderboard (data : resultat F Props) (fil : string)
    (m : kart F) :
  snd (lag_kart data fil) = Ok m ->
  exists lb : leaderboard F,
    k_html m = [lb]
    /\ lb_prosent lb = discovery_prosent (stats data)
    /\ lb_besøkt_km lb = besøkt_km (stats data)
    /\ lb_total_km lb = total_km (stats data).
Proof.
  unfold lag_kart, k_bind, gjør. cbn [fst snd app].
  destruct (sentrum (gpx_punkter data)) as [c | e]; cbn; [| discriminate].
  unfold Map.
  destruct (validate_location c) as [[] | e]; cbn; [| discriminate].
  match goal with
  | |- context [for_each ?segs ?m0 tegn_segment] =>
      destruct (for_each segs m0 tegn_segment) as [m1 | e] eqn:Hm
  end; cbn; [| discriminate].
  unfold PolyLine.
  destruct (validate_locations (lat_lon (gpx_punkter data))) as [[] | e];
    cbn; [| discriminate].
  match goal with
  | |- context [save ?m ?f] => destruct (save m f) as [[] | e]
  end; cbn; [| discriminate].
  intros [= <-]. cbn.
  destruct (tegn_segmenter _ _ Hm) as (_ & _ & _ & Hh & _).
  cbn in Hh. rewrite Hh. eexists. cbn. repeat split.
Qed.

End MerOmKart.

(** X12: the map [lag_kart] returns has one polyline per segment, in
    order, with the segment's coordinates as (lat, lon), green when the
    segment is visited and red when not, followed by the blue track line
    whose coordinates, swapped back, are the track; its leaderboard shows
    the run's statistics, and its two counts are the numbers of green and
    of red lines and add up to the number of segments. *)
Theorem X12_map_content
    {F : Type} {num : Num F} {math : Math F} {shapely : Shapely F}
    {python : Python F} {folium : Folium F} {Props : Type}
    (data : resultat F Props) (output_file : string) (m : kart F) :
  snd (lag_kart data output_file) = Ok m ->
  sentrum (gpx_punkter data) = Ok (k_location m)
  /\ exists (linjer : list (polyline F)) (spor : polyline F)
           (lb : leaderboard F),
       k_linjer m = linjer ++ [spor]
       /\ Forall2 tegnet (segmenter data) linjer
       /\ pl_color spor = "blue"%string
       /\ lat_lon (pl_coords spor) = gpx_punkter data
       /\ k_html m = [lb]
       /\ lb_prosent lb = discovery_prosent (stats data)
       /\ lb_besøkt_km lb = besøkt_km (stats data)
       /\ lb_total_km lb = total_km (stats data)
       /\ lb_besøkt lb = antall_linjer "green" linjer
       /\ lb_ikke_besøkt lb = antall_linjer "red" linjer
       /\ (lb_besøkt lb + lb_ikke_besøkt lb)%nat =
          List.length (segmenter data).
Proof.
  unfold lag_kart, k_bind, gjør. cbn [fst snd app].
  destruct (sentrum (gpx_punkter data)) as [c | e] eqn:Hc;
    cbn; [| discriminate].
  unfold Map.
  destruct (validate_location c) as [[] | e]; cbn; [| discriminate].
  match goal with
  | |- context [for_each ?segs ?m0 tegn_segment] =>
      destruct (for_each segs m0 tegn_segment) as [m1 | e] eqn:Hm
  end; cbn; [| discriminate].
  unfold PolyLine.
  destruct (validate_locations (lat_lon (gpx_punkter data))) as [[] | e];
    cbn; [| discriminate].
  match goal with
  | |- context [save ?m ?f] => destruct (save m f) as [[] | e]
  end; cbn; [| discriminate].
  intros [= <-]. cbn.
  destruct (tegn_segmenter _ _ Hm) as (Hl & _ & _ & Hh & linjer & Hk & Hf).
  cbn in Hl, Hh, Hk. split; [rewrite Hl; reflexivity |].
  destruct (antall_farge Hf) as [Hg Hr].
  eexists linjer, _, _. rewrite Hk, Hh. cbn.
  split; [reflexivity |]. split; [exact Hf |]. split; [reflexivity |].
  split; [apply lat_lon_involutive |].
  do 4 (split; [reflexivity |]).
  split; [exact Hg |]. split; [exact Hr |].
  cbn [lb_besøkt lb_ikke_besøkt].
  clear. induction (segmenter data) as [| s l IH]; [reflexivity |].
  cbn [filter]. destruct (seg_besøkt s); cbn [negb List.length]; lia.
Qed.

Lemma X12_witness :
  exists (r : resultat Q string) (m : kart Q) (lb : leaderboard Q),
    verdi (@prosesser_løyper Q Exact.num Exact.math Eksempel.planar_Q _
             Eksempel.disk "loyper.geojson" "start.gpx") = Ok r
    /\ snd (@lag_kart Q Exact.num Eksempel.planar_Q Kjøringer.python_Q
              Kjøringer.folium_Q string r "kart.html") = Ok m
    /\ k_html m = [lb]
    /\ (lb_besøkt lb + lb_ikke_besøkt lb)%nat = 4%nat.
Proof.
  kjør_ut (verdi (@prosesser_løyper Q Exact.num Exact.math
             Eksempel.planar_Q _ Eksempel.disk "loyper.geojson" "start.gpx")).
  match goal with
  | |- exists m lb, _ /\ snd ?kjøring = _ /\ _ =>
      kjør_ut (snd kjøring)
  end.
  match goal with
  | |- exists lb, ?run = Ok ?r /\ ?kjøring = Ok ?m /\ _ =>
      assert (H : run = Ok r) by beregnet;
      assert (Hk : kjøring = Ok m) by beregnet;
      destruct (@X12_map_content Q Exact.num Exact.math Eksempel.planar_Q
                  Kjøringer.python_Q Kjøringer.folium_Q string _ _ _ Hk)
        as (_ & linjer & spor & lb & _ & _ & _ & _ & Hh & _ & _ & _ & _ & _
            & Hn)
  end.
  exists lb. split; [exact H |]. split; [exact Hk |]. split; [exact Hh |].
  rewrite Hn. reflexivity.
Defined.

(** X13: [lag_kart] writes the map only as its last act: when it returns
    [m], it has printed its first line, saved exactly [m] to the output
    file and then printed that the map is saved; when it raises, nothing
    was saved and only the first line was printed, and the exception is
    folium's: from the location of the map, from the locations of a
    segment or of the track, or from [save]. *)
Theorem X13_map_is_saved_last
    {F : Type} {num : Num F} {math : Math F} {shapely : Shapely F}
    {python : Python F} {folium : Folium F} {Props : Type}
    (data : resultat F Props) (output_file : string) :
  (forall m : kart F,
      snd (lag_kart data output_file) = Ok m ->
      fst (lag_kart data output_file) =
        [HLagerKart; HSave output_file m; HKartLagret output_file])
  /\ (forall e : exn,
        snd (lag_kart data output_file) = Raise e ->
        fst (lag_kart data output_file) = [HLagerKart]
        /\ ((exists c, sentrum (gpx_punkter data) = Ok c /\
               validate_location c = Raise e)
            \/ (exists s, In s (segmenter data) /\
               validate_locations (lat_lon (coords (seg_geometry s)))
                 = Raise e)
            \/ validate_locations (lat_lon (gpx_punkter data)) = Raise e
            \/ exists m, save m output_file = Raise e)).
Proof.
  unfold lag_kart, k_bind, gjør. cbn [fst snd app].
  destruct (sentrum_Ok (gpx_punkter data)) as [c Hc]. rewrite Hc. cbn.
  unfold Map.
  destruct (validate_location c) as [[] | e0] eqn:Hl; cbn.
  2:{ split; [discriminate |]. intros e [= <-]. split; [reflexivity |].
      left. exists c. split; [reflexivity | exact Hl]. }
  match goal with
  | |- context [for_each ?segs ?m0 tegn_segment] =>
      destruct (for_each segs m0 tegn_segment) as [m1 | e1] eqn:Hm
  end; cbn.
  - unfold PolyLine.
    destruct (validate_locations (lat_lon (gpx_punkter data)))
      as [[] | e2] eqn:Hv; cbn.
    + match goal with
      | |- context [save ?m ?f] => destruct (save m f) as [[] | e3] eqn:Hs
      end; cbn.
      * split; [intros m [= <-]; reflexivity | discriminate].
      * split; [discriminate |]. intros e [= <-]. split; [reflexivity |].
        do 3 right. eexists. exact Hs.
    + split; [discriminate |]. intros e [= <-]. auto.
  - split; [discriminate |]. intros e [= <-]. split; [reflexivity |].
    right. left. eapply tegn_segmenter_feil. exact Hm.
Qed.

Lemma X13_witness :
  snd (@lag_kart Q Exact.num Eksempel.planar_Q Kjøringer.python_Q
         Kjøringer.folium_Q string Kjøringer.data_tom "kart.html")
    = Raise ValueError
  /\ fst (@lag_kart Q Exact.num Eksempel.planar_Q Kjøringer.python_Q
            Kjøringer.folium_Q string Kjøringer.data_tom "kart.html")
     = [HLagerKart].
Proof.
  assert (H : snd (@lag_kart Q Exact.num Eksempel.planar_Q
                     Kjøringer.python_Q Kjøringer.folium_Q string
                     Kjøringer.data_tom "kart.html") = Raise ValueError)
    by beregnet.
  split; [exact H |].
  exact (proj1 (proj2 (@X13_map_is_saved_last Q Exact.num Exact.math
                         Eksempel.planar_Q Kjøringer.python_Q
                         Kjøringer.folium_Q string Kjøringer.data_tom
                         "kart.html") _ H)).
Defined.

(** ** [main] *)

Section MerOmMain.

Context {F : Type} {num : Num F} {math : Math F} {shapely : Shapely F}.
Context {python : Python F} {folium : Folium F} {Props : Type}.

Lemma k_bind_gjør {A : Type} (h : hendelse F) (k : unit -> Kjøring F A) :
  k_bind (gjør h) k = (h :: fst (k tt), snd (k tt)).
Proof. unfold k_bind, gjør. destruct (k tt). reflexivity. Qed.

Lemma k_bind_Ok {A B : Type} (out : list (hendelse F)) (a : A)
    (k : A -> Kjøring F B) :
  k_bind (out, Ok a) k = (out ++ fst (k a), snd (k a)).
Proof. unfold k_bind. destruct (k a). reflexivity. Qed.

(** What [lag_kart] does to the outside, whatever it returns. *)
Lemma lag_kart_hendelser (data : resultat F Props) (fil : string) :
  match snd (lag_kart data fil) with
  | Ok m => fst (lag_kart data fil) = [HLagerKart; HSave fil m; HKartLagret fil]
  | Raise _ => fst (lag_kart data fil) = [HLagerKart]
  end.
Proof.
  unfold lag_kart. rewrite k_bind_gjør. cbn [fst snd].
  destruct (sentrum (gpx_punkter data)) as [c |]; [| reflexivity].
  rewrite k_bind_Ok. cbn [fst snd app].
  destruct (Map c 12 "OpenStreetMap") as [m0 |]; [| reflexivity].
  rewrite k_bind_Ok. cbn [fst snd app].
  destruct (for_each (segmenter data) m0 tegn_segment) as [m1 |];
    [| reflexivity].
  rewrite k_bind_Ok. cbn [fst snd app].
  match goal with
  | |- context [PolyLine ?a ?b ?c ?d ?e] =>
      destruct (PolyLine a b c d e) as [l |]; [| reflexivity]
  end.
  rewrite k_bind_Ok. cbn [fst snd app].
  match goal with
  | |- context [save ?m ?f] => destruct (save m f) as [[] |]; [| reflexivity]
  end.
  rewrite k_bind_Ok, !k_bind_gjør. reflexivity.
Qed.

(** The three ways [main] can go. *)
Lemma main_forløp (w : maskin F Props) :
  (finnes w geojson_file = false /\
   main w = ([HLinje; HTittel; HLinje; HTom;
              HFinnerIkke geojson_file; HKjørFørst], Ok tt))
  \/ (finnes w geojson_file = true /\ finnes w gpx_file = false /\
      main w = ([HLinje; HTittel; HLinje; HTom; HFinnerIkke gpx_file],
                Ok tt))
  \/ (finnes w geojson_file = true /\ finnes w gpx_file = true /\
      let løp := prosesser_løyper (filene w) geojson_file gpx_file in
      match verdi løp with
      | Raise e =>
          main w = ([HLinje; HTittel; HLinje; HTom]
                      ++ map (@HProsesser F) (utskrift løp), Raise e)
      | Ok data =>
          match snd (lag_kart data output_file) with
          | Raise e =>
              main w = ([HLinje; HTittel; HLinje; HTom]
                          ++ map (@HProsesser F) (utskrift løp)
                          ++ [HLagerKart], Raise e)
          | Ok m =>
              main w = ([HLinje; HTittel; HLinje; HTom]
                          ++ map (@HProsesser F) (utskrift løp)
                          ++ [HLagerKart; HSave output_file m;
                              HKartLagret output_file;
                              HLinje; HFerdig; HLinje; HGratulerer;
                              HDiscoveret (discovery_prosent (stats data));
                              HAvKm (besøkt_km (stats data))
                                    (total_km (stats data));
                              HÅpne output_file], Ok tt)
          end
      end).
Proof.
  unfold main. rewrite !k_bind_gjør. cbn [fst snd].
  destruct (finnes w geojson_file); cbn [negb].
  2:{ left. split; [reflexivity |]. rewrite ?k_bind_gjør. reflexivity. }
  destruct (finnes w gpx_file); cbn [negb].
  2:{ right. left. do 2 (split; [reflexivity |]).
      rewrite ?k_bind_gjør. reflexivity. }
  right. right. do 2 (split; [reflexivity |]). cbv zeta.
  unfold kall, verdi, utskrift.
  destruct (prosesser_løyper (filene w) geojson_file gpx_file)
    as [out [data | e]]; cbn [fst snd]; [| reflexivity].
  rewrite k_bind_Ok. cbn [fst snd].
  pose proof (lag_kart_hendelser data output_file) as Hk.
  destruct (lag_kart data output_file) as [out2 [m | e]];
    cbn [fst snd] in Hk |- *; subst out2.
  - rewrite k_bind_Ok, ?k_bind_gjør. reflexivity.
  - reflexivity.
Qed.

(** An event that is neither a line of [prosesser_løyper] nor part of the
    banner happened after them. *)
Lemma In_etter (out : list (melding F)) (rest : list (hendelse F))
    (h : hendelse F) :
  In h ([HLinje; HTittel; HLinje; HTom] ++ map (@HProsesser F) out ++ rest) ->
  (forall l, h <> HProsesser l) -> h <> HLinje -> h <> HTittel ->
  h <> HTom ->
  In h rest.
Proof.
  intros Hin Hp H1 H2 H3.
  apply in_app_or in Hin. destruct Hin as [Hin | Hin].
  { cbn in Hin. repeat (destruct Hin as [<- | Hin]; [congruence |]).
    contradiction. }
  apply in_app_or in Hin. destruct Hin as [Hin | Hin]; [| exact Hin].
  apply in_map_iff in Hin. destruct Hin as (l & <- & _).
  contradiction (Hp l eq_refl).
Qed.

Lemma In_senere (out : list (melding F)) (rest : list (hendelse F))
    (h : hendelse F) :
  In h rest ->
  In h ([HLinje; HTittel; HLinje; HTom] ++ map (@HProsesser F) out ++ rest).
Proof. intro H. apply in_or_app. right. apply in_or_app. right. exact H. Qed.

(** A run in which something after the banner and the lines of
    [prosesser_løyper] and [lag_kart]'s first line happened is a full
    run. *)
Lemma main_fullført (w : maskin F Props) (h : hendelse F) :
  In h (fst (main w)) ->
  (forall l, h <> HProsesser l) -> h <> HLinje -> h <> HTittel ->
  h <> HTom -> (forall f, h <> HFinnerIkke f) -> h <> HKjørFørst ->
  h <> HLagerKart ->
  finnes w geojson_file = true /\ finnes w gpx_file = true
  /\ exists data m,
       verdi (prosesser_løyper (filene w) geojson_file gpx_file) = Ok data
       /\ snd (lag_kart data output_file) = Ok m
       /\ snd (main w) = Ok tt
       /\ forall h',
            (forall l, h' <> HProsesser l) -> h' <> HLinje ->
            h' <> HTittel -> h' <> HTom ->
            (In h' (fst (main w)) <->
             In h' [HLagerKart; HSave output_file m;
                    HKartLagret output_file; HLinje; HFerdig; HLinje;
                    HGratulerer;
                    HDiscoveret (discovery_prosent (stats data));
                    HAvKm (besøkt_km (stats data)) (total_km (stats data));
                    HÅpne output_file]).
Proof.
  intros Hin Hp H1 H2 H3 H4 H5 H6.
  destruct (main_forløp w) as [(Hg & Hm) | [(Hg & Hx & Hm) | (Hg & Hx & Hm)]].
  - rewrite Hm in Hin. cbn in Hin.
    repeat (destruct Hin as [<- | Hin];
            [first [congruence | contradiction (H4 _ eq_refl)] |]).
    contradiction.
  - rewrite Hm in Hin. cbn in Hin.
    repeat (destruct Hin as [<- | Hin];
            [first [congruence | contradiction (H4 _ eq_refl)] |]).
    contradiction.
  - do 2 (split; [assumption |]). cbv zeta in Hm.
    destruct (verdi (prosesser_løyper (filene w) geojson_file gpx_file))
      as [data | e] eqn:Hv.
    2:{ rewrite Hm in Hin. cbn [fst] in Hin.
        rewrite <- (app_nil_r (map _ _)) in Hin.
        apply In_etter in Hin; try assumption. contradiction. }
    destruct (snd (lag_kart data output_file)) as [m | e] eqn:Hk.
    2:{ rewrite Hm in Hin. cbn [fst] in Hin.
        apply In_etter in Hin; try assumption.
        destruct Hin as [<- | []]. congruence. }
    exists data, m. split; [reflexivity |]. split; [exact Hk |].
    rewrite Hm. cbn [fst snd]. split; [reflexivity |].
    intros h' Hp' H1' H2' H3'. split.
    + intro Hin'. apply In_etter in Hin'; assumption.
    + apply In_senere.
Qed.

End MerOmMain.

(** X14: when one of the two input files does not exist, [main] returns
    normally after naming the first missing file (the trails before the
    track); it reads no file, draws no map and saves nothing, and what it
    does is the same whatever the files hold. *)
Theorem X14_missing_input_file
    {F : Type} {num : Num F} {math : Math F} {shapely : Shapely F}
    {python : Python F} {folium : Folium F} {Props : Type}
    (w : maskin F Props) :
  finnes w geojson_file = false \/ finnes w gpx_file = false ->
  snd (main w) = Ok tt
  /\ In (HFinnerIkke
           (if finnes w geojson_file then gpx_file else geojson_file))
        (fst (main w))
  /\ (forall h, In h (fst (main w)) ->
        (forall l, h <> HProsesser l) /\ h <> HLagerKart
        /\ (forall f m, h <> HSave f m) /\ h <> HFerdig)
  /\ (forall w' : maskin F Props,
        finnes w' geojson_file = finnes w geojson_file ->
        finnes w' gpx_file = finnes w gpx_file ->
        main w' = main w).
Proof.
  intros Hmangler.
  destruct (main_forløp w) as [(Hg & Hm) | [(Hg & Hx & Hm) | (Hg & Hx & _)]].
  - rewrite Hm, Hg. cbn [fst snd]. split; [reflexivity |].
    split; [cbn; tauto |].
    split.
    + intros h Hin. cbn in Hin.
      repeat (destruct Hin as [<- | Hin]; [repeat split; discriminate |]).
      contradiction.
    + intros w' Hg' _.
      destruct (main_forløp w') as [(_ & Hm') | [(E & _) | (E & _)]];
        congruence.
  - rewrite Hm, Hg, Hx. cbn [fst snd]. split; [reflexivity |].
    split; [cbn; tauto |].
    split.
    + intros h Hin. cbn in Hin.
      repeat (destruct Hin as [<- | Hin]; [repeat split; discriminate |]).
      contradiction.
    + intros w' Hg' Hx'.
      destruct (main_forløp w') as [(E & _) | [(_ & _ & Hm') | (_ & E & _)]];
        congruence.
  - destruct Hmangler; congruence.
Qed.

Lemma X14_witness :
  snd (@main Q Exact.num Exact.math Eksempel.planar_Q Kjøringer.python_Q
         Kjøringer.folium_Q string Kjøringer.maskin_uten_spor) = Ok tt
  /\ In (HFinnerIkke gpx_file)
        (fst (@main Q Exact.num Exact.math Eksempel.planar_Q
                Kjøringer.python_Q Kjøringer.folium_Q string
                Kjøringer.maskin_uten_spor)).
Proof.
  destruct (@X14_missing_input_file Q Exact.num Exact.math Eksempel.planar_Q
              Kjøringer.python_Q Kjøringer.folium_Q string
              Kjøringer.maskin_uten_spor (or_intror eq_refl))
    as (Hret & Hmelding & _).
  split; [exact Hret | exact Hmelding].
Defined.

(** X15: [main] saves at most one file, and only
    discovery_kart_gausdal.html: a map is saved exactly when both input
    files exist, [prosesser_løyper] returned and [lag_kart] returned that
    map; and "FERDIG!" is printed exactly when a map was saved. *)
Theorem X15_main_saves_one_map
    {F : Type} {num : Num F} {math : Math F} {shapely : Shapely F}
    {python : Python F} {folium : Folium F} {Props : Type}
    (w : maskin F Props) :
  (forall f m,
      In (HSave f m) (fst (main w)) <->
      f = output_file
      /\ finnes w geojson_file = true /\ finnes w gpx_file = true
      /\ exists data,
           verdi (prosesser_løyper (filene w) geojson_file gpx_file)
             = Ok data
           /\ snd (lag_kart data output_file) = Ok m)
  /\ (forall f m f' m',
        In (HSave f m) (fst (main w)) -> In (HSave f' m') (fst (main w)) ->
        f = f' /\ m = m')
  /\ (In HFerdig (fst (main w)) <->
      exists f m, In (HSave f m) (fst (main w))).
Proof.
  assert (Hlagret : forall f m,
             In (HSave f m) (fst (main w)) ->
             f = output_file
             /\ finnes w geojson_file = true /\ finnes w gpx_file = true
             /\ exists data,
                  verdi (prosesser_løyper (filene w) geojson_file gpx_file)
                    = Ok data
                  /\ snd (lag_kart data output_file) = Ok m).
  { intros f m Hin.
    destruct (main_fullført w Hin)
      as (Hg & Hx & data & m0 & Hv & Hk & _ & Hhs); try discriminate.
    apply Hhs in Hin; try discriminate. cbn in Hin.
    repeat (destruct Hin as [E | Hin];
            [first [discriminate E | injection E as <- <-] |]);
      [| contradiction].
    split; [reflexivity |]. do 2 (split; [assumption |]).
    exists data. split; assumption. }
  split; [| split].
  - intros f m. split; [apply Hlagret |].
    intros (-> & Hg & Hx & data & Hv & Hk).
    destruct (main_forløp w) as [(E & _) | [(_ & E & _) | (_ & _ & Hm)]];
      try congruence.
    cbv zeta in Hm. rewrite Hv, Hk in Hm. rewrite Hm. cbn [fst].
    apply In_senere. cbn. tauto.
  - intros f m f' m' H1 H2.
    destruct (Hlagret _ _ H1) as (-> & _ & _ & data & Hv & Hk).
    destruct (Hlagret _ _ H2) as (-> & _ & _ & data' & Hv' & Hk').
    split; [reflexivity |]. congruence.
  - split.
    + intro Hin.
      destruct (main_fullført w Hin)
        as (_ & _ & data & m & _ & _ & _ & Hhs); try discriminate.
      exists output_file, m. apply Hhs; try discriminate. cbn. tauto.
    + intros (f & m & Hin).
      destruct (main_fullført w Hin)
        as (_ & _ & data & m0 & _ & _ & _ & Hhs); try discriminate.
      apply Hhs; try discriminate. cbn. tauto.
Qed.

Lemma X15_witness :
  exists m : kart Q,
    In (HSave output_file m)
       (fst (@main Q Exact.num Exact.math Eksempel.planar_Q
               Kjøringer.python_Q Kjøringer.folium_Q string
               Kjøringer.maskin_klar))
    /\ In HFerdig
          (fst (@main Q Exact.num Exact.math Eksempel.planar_Q
                  Kjøringer.python_Q Kjøringer.folium_Q string
                  Kjøringer.maskin_klar)).
Proof.
  destruct (@X15_main_saves_one_map Q Exact.num Exact.math Eksempel.planar_Q
              Kjøringer.python_Q Kjøringer.folium_Q string
              Kjøringer.maskin_klar) as (Hlagret & _ & Hferdig).
  match eval vm_compute in
    (verdi (@prosesser_løyper Q Exact.num Exact.math Eksempel.planar_Q _
              Kjøringer.disk_main geojson_file gpx_file)) with
  | Ok ?data =>
      match eval vm_compute in
        (snd (@lag_kart Q Exact.num Eksempel.planar_Q Kjøringer.python_Q
                Kjøringer.folium_Q string data output_file)) with
      | Ok ?m =>
          assert (Hin : In (HSave output_file m)
                          (fst (@main Q Exact.num Exact.math
                                  Eksempel.planar_Q Kjøringer.python_Q
                                  Kjøringer.folium_Q string
                                  Kjøringer.maskin_klar)));
          [ refine (proj2 (Hlagret output_file m)
                      (conj eq_refl (conj eq_refl (conj eq_refl
                         (ex_intro _ data (conj _ _)))))); beregnet
          | exists m; split; [exact Hin |];
            apply (proj2 Hferdig); exists output_file; exists m; exact Hin ]
      end
  end.
Defined.

(** X16: [main] raises exactly when both input files exist and either
    [prosesser_løyper] raises, or it returns and [lag_kart] raises; the
    exception is that one, and no file has been saved. *)
Theorem X16_main_exceptions
    {F : Type} {num : Num F} {math : Math F} {shapely : Shapely F}
    {python : Python F} {folium : Folium F} {Props : Type}
    (w : maskin F Props) (e : exn) :
  (snd (main w) = Raise e <->
   finnes w geojson_file = true /\ finnes w gpx_file = true
   /\ (verdi (prosesser_løyper (filene w) geojson_file gpx_file) = Raise e
       \/ exists data,
            verdi (prosesser_løyper (filene w) geojson_file gpx_file)
              = Ok data
            /\ snd (lag_kart data output_file) = Raise e))
  /\ (snd (main w) = Raise e ->
      forall f m, ~ In (HSave f m) (fst (main w))).
Proof.
  split.
  - destruct (main_forløp w)
      as [(Hg & Hm) | [(Hg & Hx & Hm) | (Hg & Hx & Hm)]].
    + rewrite Hm. cbn [snd]. split; [discriminate |].
      intros (E & _). congruence.
    + rewrite Hm. cbn [snd]. split; [discriminate |].
      intros (_ & E & _). congruence.
    + cbv zeta in Hm.
      destruct (verdi (prosesser_løyper (filene w) geojson_file gpx_file))
        as [data | e1] eqn:Hv.
      * destruct (snd (lag_kart data output_file)) as [m0 | e2] eqn:Hk;
          rewrite Hm; cbn [snd].
        -- split; [discriminate |].
           intros (_ & _ & [E | (data' & E & Hk')]); [discriminate |].
           injection E as <-. congruence.
        -- split.
           ++ intros [= <-]. do 2 (split; [assumption |]). right.
              exists data. split; [reflexivity | assumption].
           ++ intros (_ & _ & [E | (data' & E & Hk')]); [discriminate |].
              injection E as <-. congruence.
      * rewrite Hm. cbn [snd]. split.
        -- intros [= <-]. do 2 (split; [assumption |]). left. reflexivity.
        -- intros (_ & _ & [E | (data' & E & _)]); congruence.
  - intros He f m Hin.
    destruct (main_fullført w Hin) as (_ & _ & _ & _ & _ & _ & E & _);
      try discriminate.
    congruence.
Qed.

Lemma X16_witness :
  snd (@main Q Exact.num Exact.math Eksempel.planar_Q Kjøringer.python_Q
         Kjøringer.folium_Q string Kjøringer.maskin_slettet)
    = Raise FileNotFoundError
  /\ snd (@main Q Exact.num Exact.math Eksempel.planar_Q Kjøringer.python_Q
            Kjøringer.folium_skrivebeskyttet string Kjøringer.maskin_klar)
     = Raise FileNotFoundError.
Proof.
  split.
  - apply (@X16_main_exceptions Q Exact.num Exact.math Eksempel.planar_Q
             Kjøringer.python_Q Kjøringer.folium_Q string
             Kjøringer.maskin_slettet FileNotFoundError).
    split; [reflexivity |]. split; [reflexivity |]. left. reflexivity.
  - apply (@X16_main_exceptions Q Exact.num Exact.math Eksempel.planar_Q
             Kjøringer.python_Q Kjøringer.folium_skrivebeskyttet string
             Kjøringer.maskin_klar FileNotFoundError).
    split; [reflexivity |]. split; [reflexivity |]. right.
    kjør_ut (verdi (@prosesser_løyper Q Exact.num Exact.math
               Eksempel.planar_Q _ Kjøringer.disk_main geojson_file
               gpx_file)).
    split; beregnet.
Defined.

(** X17: the numbers [main] congratulates with are the ones on the map it
    saved: the percentage and the two lengths it prints at the end are
    those of the leaderboard of the saved map. *)
Theorem X17_reported_numbers_are_on_the_map
    {F : Type} {num : Num F} {math : Math F} {shapely : Shapely F}
    {python : Python F} {folium : Folium F} {Props : Type}
    (w : maskin F Props) (f : string) (m : kart F) :
  In (HSave f m) (fst (main w)) ->
  exists lb : leaderboard F,
    k_html m = [lb]
    /\ In (HDiscoveret (lb_prosent lb)) (fst (main w))
    /\ In (HAvKm (lb_besøkt_km lb) (lb_total_km lb)) (fst (main w))
    /\ forall p b t,
         (In (HDiscoveret p) (fst (main w)) -> p = lb_prosent lb)
         /\ (In (HAvKm b t) (fst (main w)) ->
             b = lb_besøkt_km lb /\ t = lb_total_km lb).
Proof.
  intro Hin.
  destruct (main_fullført w Hin)
    as (_ & _ & data & m0 & _ & Hk & _ & Hhs); try discriminate.
  apply Hhs in Hin; try discriminate. cbn in Hin.
  repeat (destruct Hin as [E | Hin];
          [first [discriminate E | injection E as <- <-] |]);
    [| contradiction].
  destruct (lag_kart_leaderboard _ _ Hk) as (lb & Hh & Hp & Hb & Ht).
  exists lb. rewrite Hp, Hb, Ht. split; [exact Hh |].
  split; [apply Hhs; try discriminate; cbn; tauto |].
  split; [apply Hhs; try discriminate; cbn; tauto |].
  intros p b t. split; intro Hin;
    (apply Hhs in Hin; try discriminate; cbn in Hin;
     repeat (destruct Hin as [E | Hin];
             [first [discriminate E
                    | injection E as <-; reflexivity
                    | injection E as <- <-; split; reflexivity] |]);
     contradiction).
Qed.

Lemma X17_witness :
  exists (m : kart Q) (lb : leaderboard Q),
    In (HSave output_file m)
       (fst (@main Q Exact.num Exact.math Eksempel.planar_Q
               Kjøringer.python_Q Kjøringer.folium_Q string
               Kjøringer.maskin_klar))
    /\ k_html m = [lb]
    /\ lb_prosent lb = 50%Q
    /\ In (HDiscoveret 50%Q)
          (fst (@main Q Exact.num Exact.math Eksempel.planar_Q
                  Kjøringer.python_Q Kjøringer.folium_Q string
                  Kjøringer.maskin_klar)).
Proof.
  match eval vm_compute in
    (fst (@main Q Exact.num Exact.math Eksempel.planar_Q
            Kjøringer.python_Q Kjøringer.folium_Q string
            Kjøringer.maskin_klar)) with
  | ?hs =>
      assert (E : fst (@main Q Exact.num Exact.math Eksempel.planar_Q
                         Kjøringer.python_Q Kjøringer.folium_Q string
                         Kjøringer.maskin_klar) = hs) by beregnet;
      match hs with
      | context [HSave _ ?m] =>
          assert (Hin : In (HSave output_file m)
                          (fst (@main Q Exact.num Exact.math
                                  Eksempel.planar_Q Kjøringer.python_Q
                                  Kjøringer.folium_Q string
                                  Kjøringer.maskin_klar)));
          [ rewrite E; cbn [In];
            repeat first [left; reflexivity | right]
          | exists m ]
      end
  end.
  destruct (@X17_reported_numbers_are_on_the_map Q Exact.num Exact.math
              Eksempel.planar_Q Kjøringer.python_Q Kjøringer.folium_Q string
              _ _ _ Hin) as (lb & Hh & Hp & _ & Hunik).
  exists lb. split; [exact Hin |]. split; [exact Hh |].
  assert (H50 : In (HDiscoveret 50%Q)
                  (fst (@main Q Exact.num Exact.math Eksempel.planar_Q
                          Kjøringer.python_Q Kjøringer.folium_Q string
                          Kjøringer.maskin_klar))).
  { rewrite E. cbn [In]. repeat first [left; reflexivity | right]. }
  split; [| exact H50].
  symmetry. exact (proj1 (Hunik 50%Q 0%Q 0%Q) H50).
Defined.
